(** * EmojiAnalytics: the minute-bucketing sliding-window aggregator

    A shallow embedding of the class [EmojiAnalytics] of
    [analytical_server.py] and the properties of its rotation, eviction
    and query operations. *)

From Stdlib Require Import ZArith List Lia Ascii.
From stdpp Require Import gmap strings list fin_maps sorting.

Local Open Scope Z_scope.

(** ** Time

    A naive [datetime] is the number of microseconds on the proleptic
    Gregorian time line since 0001-01-01T00:00:00.  The year range
    0001..9999 of Python's type is not enforced by these operations; the
    calls that check it, and raise, are in [Checked] below.  A parsed
    timestamp may also carry an UTC offset, which [add_emoji] throws
    away. *)

Module Time.

Record datetime : Type := mk_datetime {
  ticks : Z;              (* naive wall-clock fields, in microseconds *)
  tzinfo : option Z       (* UTC offset in minutes, when aware *)
}.

Definition MINUTE : Z := 60000000.

(** [dt.replace(tzinfo=None)]: an aware value keeps its wall-clock fields. *)
Definition replace_tzinfo_None (dt : datetime) : Z := ticks dt.

(** [dt.replace(second=0, microsecond=0)] on a naive value. *)
Definition replace_second_microsecond_0 (t : Z) : Z := MINUTE * (t / MINUTE).

(** [timedelta(minutes=n)]. *)
Definition timedelta_minutes (n : Z) : Z := n * MINUTE.

End Time.

Import Time.

(** ** The aggregator state *)

(** One closed minute of a series: [(timestamp, count)]. *)
Abbreviation entry := (Z * Z)%type.

Record EmojiAnalytics : Type := mk_analytics {
  window_size : Z;
  emoji_counts : gmap string (list entry);   (* defaultdict(deque) *)
  total_counts : list entry;                 (* deque *)
  current_minute_counts : gmap string Z;     (* defaultdict(int) *)
  current_minute_total : Z;
  last_minute : Z
}.

(** [__init__(window_size_minutes)], built at wall-clock time [now]. *)
Definition __init__ (window_size_minutes : Z) (now : Z) : EmojiAnalytics :=
  {| window_size := window_size_minutes;
     emoji_counts := ∅;
     total_counts := [];
     current_minute_counts := ∅;
     current_minute_total := 0;
     last_minute := replace_second_microsecond_0 now |}.

(** The [while d and d[0][0] < cutoff_time: d.popleft()] loop. *)
Fixpoint popleft_while (cutoff_time : Z) (d : list entry) : list entry :=
  match d with
  | [] => []
  | e :: d' => if e.1 <? cutoff_time then popleft_while cutoff_time d' else d
  end.

(** The entries that loop removes. *)
Fixpoint popped (cutoff_time : Z) (d : list entry) : list entry :=
  match d with
  | [] => []
  | e :: d' => if e.1 <? cutoff_time then e :: popped cutoff_time d' else []
  end.

(** One round of the [for emoji_type, count in ...items()] loop of
    [_save_minute_data]: append to the category's deque (created empty by
    the defaultdict when absent), then evict from its front. *)
Definition save_emoji (timestamp w : Z) (emoji_type : string) (count : Z)
    (ec : gmap string (list entry)) : gmap string (list entry) :=
  let cutoff_time := timestamp - timedelta_minutes w in
  <[emoji_type := popleft_while cutoff_time
                    (default [] (ec !! emoji_type) ++ [(timestamp, count)])]> ec.

Definition _save_minute_data (s : EmojiAnalytics) : EmojiAnalytics :=
  let timestamp := last_minute s in
  let ec := map_fold (save_emoji timestamp (window_size s))
                     (emoji_counts s) (current_minute_counts s) in
  let tc :=
    if 0 <? current_minute_total s then
      let cutoff_time := timestamp - timedelta_minutes (window_size s) in
      popleft_while cutoff_time
        (total_counts s ++ [(timestamp, current_minute_total s)])
    else total_counts s in
  {| window_size := window_size s;
     emoji_counts := ec;
     total_counts := tc;
     current_minute_counts := current_minute_counts s;
     current_minute_total := current_minute_total s;
     last_minute := last_minute s |}.

Definition _reset_current_minute (s : EmojiAnalytics) : EmojiAnalytics :=
  {| window_size := window_size s;
     emoji_counts := emoji_counts s;
     total_counts := total_counts s;
     current_minute_counts := ∅;
     current_minute_total := 0;
     last_minute := last_minute s |}.

Definition set_last_minute (m : Z) (s : EmojiAnalytics) : EmojiAnalytics :=
  {| window_size := window_size s;
     emoji_counts := emoji_counts s;
     total_counts := total_counts s;
     current_minute_counts := current_minute_counts s;
     current_minute_total := current_minute_total s;
     last_minute := m |}.

(** [self.current_minute_counts[emoji_type] = v]. *)
Definition store_count (emoji_type : string) (v : Z) (s : EmojiAnalytics)
    : EmojiAnalytics :=
  {| window_size := window_size s;
     emoji_counts := emoji_counts s;
     total_counts := total_counts s;
     current_minute_counts := <[emoji_type := v]> (current_minute_counts s);
     current_minute_total := current_minute_total s;
     last_minute := last_minute s |}.

(** [self.current_minute_total = v]. *)
Definition store_total (v : Z) (s : EmojiAnalytics) : EmojiAnalytics :=
  {| window_size := window_size s;
     emoji_counts := emoji_counts s;
     total_counts := total_counts s;
     current_minute_counts := current_minute_counts s;
     current_minute_total := v;
     last_minute := last_minute s |}.

(** The two [+= 1] at the end of [add_emoji]; the defaultdict reads an
    absent category as 0. *)
Definition increment (emoji_type : string) (s : EmojiAnalytics) : EmojiAnalytics :=
  let s1 :=
    store_count emoji_type
      (default 0 (current_minute_counts s !! emoji_type) + 1) s in
  store_total (current_minute_total s1 + 1) s1.

(** Lines 33 to 36: close the open minute when the event belongs to a
    later one. *)
Definition rotate (current_minute : Z) (s : EmojiAnalytics) : EmojiAnalytics :=
  if last_minute s <? current_minute then
    set_last_minute current_minute (_reset_current_minute (_save_minute_data s))
  else s.

(** The body of [add_emoji] under the lock, for a naive [timestamp]. *)
Definition add_emoji_locked (emoji_type : string) (timestamp : Z)
    (s : EmojiAnalytics) : EmojiAnalytics :=
  let current_minute := replace_second_microsecond_0 timestamp in
  increment emoji_type (rotate current_minute s).

(** ** Timestamp strings *)

(** [timestamp_str.replace('Z', '+00:00')]. *)
Fixpoint replace_Z (timestamp_str : string) : string :=
  match timestamp_str with
  | EmptyString => EmptyString
  | String c rest =>
      if Ascii.eqb c "Z"%char then ("+00:00" +:+ replace_Z rest)%string
      else String c (replace_Z rest)
  end.

(** [datetime.fromisoformat] belongs to Python's library, so the
    aggregator is parameterised by it ([None]: the call raises).  [IsoBasic]
    is an instance for the scenarios: it reads the layout
    [YYYY-MM-DDTHH:MM:SS], optionally followed by [+HH:MM] or [-HH:MM], with
    the day count of Python's [_ymd2ord], and rejects every other string. *)
Module IsoBasic.

Definition digit (c : ascii) : option Z :=
  let n := Z.of_N (Ascii.N_of_ascii c) in
  if (48 <=? n) && (n <=? 57) then Some (n - 48) else None.

Definition two (a b : ascii) : option Z :=
  x ← digit a; y ← digit b; Some (10 * x + y).

Definition four (a b c d : ascii) : option Z :=
  x ← two a b; y ← two c d; Some (100 * x + y).

Definition is_leap (year : Z) : bool :=
  (year mod 4 =? 0) && (negb (year mod 100 =? 0) || (year mod 400 =? 0)).

Definition days_in_month (year month : Z) : Z :=
  if month =? 2 then (if is_leap year then 29 else 28)
  else if (month =? 4) || (month =? 6) || (month =? 9) || (month =? 11) then 30
  else 31.

Definition days_before_year (year : Z) : Z :=
  let y := year - 1 in y * 365 + y / 4 - y / 100 + y / 400.

Definition days_before_month (year month : Z) : Z :=
  foldr (fun m acc => days_in_month year m + acc) 0
        (map Z.of_nat (seq 1 (Z.to_nat (month - 1)))).

Definition ymd2ord (year month day : Z) : Z :=
  days_before_year year + days_before_month year month + day.

Definition naive (year month day hour minute second : Z) : option Z :=
  if (1 <=? year) && (1 <=? month) && (month <=? 12) && (1 <=? day)
     && (day <=? days_in_month year month)
     && (hour <? 24) && (minute <? 60) && (second <? 60)
  then Some (((((ymd2ord year month day - 1) * 24 + hour) * 60 + minute) * 60
              + second) * 1000000)
  else None.

Definition offset (cs : list ascii) : option (option Z) :=
  match cs with
  | [] => Some None
  | [sg; h1; h2; c; m1; m2] =>
      h ← two h1 h2; m ← two m1 m2;
      if Ascii.eqb c ":"%char && (h <? 24) && (m <? 60) then
        if Ascii.eqb sg "+"%char then Some (Some (h * 60 + m))
        else if Ascii.eqb sg "-"%char then Some (Some (- (h * 60 + m)))
        else None
      else None
  | _ => None
  end.

Definition fromisoformat (date_string : string) : option datetime :=
  match String.list_ascii_of_string date_string with
  | y1 :: y2 :: y3 :: y4 :: d1 :: mo1 :: mo2 :: d2 :: da1 :: da2 :: sep
      :: h1 :: h2 :: c1 :: mi1 :: mi2 :: c2 :: s1 :: s2 :: rest =>
      if Ascii.eqb d1 "-"%char && Ascii.eqb d2 "-"%char
         && Ascii.eqb sep "T"%char
         && Ascii.eqb c1 ":"%char && Ascii.eqb c2 ":"%char
      then
        year ← four y1 y2 y3 y4; month ← two mo1 mo2; day ← two da1 da2;
        hour ← two h1 h2; minute ← two mi1 mi2; second ← two s1 s2;
        t ← naive year month day hour minute second;
        tz ← offset rest;
        Some (mk_datetime t tz)
      else None
  | _ => None
  end.

End IsoBasic.

(** ** Ingestion and queries *)

(** A ['timestamp'/'count'] record of a query result; the timestamp is
    kept as the datetime that [isoformat()] renders. *)
Record data_point : Type := mk_point { timestamp : Z; count : Z }.

Definition to_point (e : entry) : data_point := mk_point e.1 e.2.

(** The result of [get_current_stats]. *)
Record stats : Type := mk_stats {
  total_emojis : Z;
  emoji_breakdown : gmap string Z;
  window_minutes : Z
}.

(** [sum(count for _, count in data_points)]. *)
Definition sum_counts (data_points : list entry) : Z :=
  foldr (fun e acc => e.2 + acc) 0 data_points.

Definition get_emoji_data (s : EmojiAnalytics)
    : gmap string (list data_point) * EmojiAnalytics :=
  let s' := _save_minute_data s in
  (fmap (M := gmap string) (map to_point) (emoji_counts s'), s').

Definition get_total_data (s : EmojiAnalytics)
    : list data_point * EmojiAnalytics :=
  let s' := _save_minute_data s in
  (map to_point (total_counts s'), s').

Definition get_current_stats (s : EmojiAnalytics) : stats * EmojiAnalytics :=
  let total_emojis := sum_counts (total_counts s) + current_minute_total s in
  let emoji_totals :=
    map_imap (fun emoji_type data_points =>
                Some (sum_counts data_points
                      + default 0 (current_minute_counts s !! emoji_type)))
             (emoji_counts s) in
  (mk_stats total_emojis emoji_totals (window_size s), s).

Section Aggregator.

Variable fromisoformat : string -> option datetime.

(** The [try]/[except] of [add_emoji]: the parsed timestamp without its
    time zone, or the wall clock [now] when parsing raises. *)
Definition parse_timestamp (timestamp_str : string) (now : Z) : Z :=
  match fromisoformat (replace_Z timestamp_str) with
  | Some dt => replace_tzinfo_None dt
  | None => now
  end.

Definition add_emoji (emoji_type timestamp_str : string) (now : Z)
    (s : EmojiAnalytics) : EmojiAnalytics :=
  add_emoji_locked emoji_type (parse_timestamp timestamp_str now) s.

(** The calls the service makes on the shared instance. *)
Inductive op : Type :=
  | AddEmoji (emoji_type timestamp_str : string) (now : Z)
  | GetEmojiData
  | GetTotalData
  | GetCurrentStats.

Definition exec (o : op) (s : EmojiAnalytics) : EmojiAnalytics :=
  match o with
  | AddEmoji emoji_type timestamp_str now => add_emoji emoji_type timestamp_str now s
  | GetEmojiData => (get_emoji_data s).2
  | GetTotalData => (get_total_data s).2
  | GetCurrentStats => (get_current_stats s).2
  end.

Definition run (ops : list op) (s : EmojiAnalytics) : EmojiAnalytics :=
  foldl (fun st o => exec o st) s ops.

End Aggregator.

(** ** Observations on a state *)

(** The deque of a category ([[]] when the key is absent). *)
Definition series (emoji_type : string) (s : EmojiAnalytics) : list entry :=
  default [] (emoji_counts s !! emoji_type).

(** [current_minute_counts.get(emoji_type, 0)]. *)
Definition open_count (emoji_type : string) (s : EmojiAnalytics) : Z :=
  default 0 (current_minute_counts s !! emoji_type).

(** Retained counts of a category plus its count in the open bucket. *)
Definition retained_plus_open (emoji_type : string) (s : EmojiAnalytics) : Z :=
  sum_counts (series emoji_type s) + open_count emoji_type s.

(** The key of the most recent entry of a series. *)
Definition latest (d : list entry) : option Z := fst <$> last d.

(** Keys in non-decreasing order (what appends at a marker that never
    moves back give). *)
Definition ascending (d : list entry) : Prop :=
  StronglySorted (fun a b : entry => a.1 <= b.1) d.

(** Keys strictly increasing, hence without duplicates. *)
Fixpoint strictly_ascending (keys : list Z) : bool :=
  match keys with
  | a :: (b :: _) as rest => (a <? b) && strictly_ascending rest
  | _ => true
  end.

(** Every entry of [d] is at most [w] minutes older than the latest entry
    of the same series. *)
Definition window_bound (w : Z) (d : list entry) : Prop :=
  forall k, latest d = Some k ->
    Forall (fun e : entry => k - e.1 <= timedelta_minutes w) d.

(** Every entry of every series is at most [window_size] minutes older than
    the latest closed minute, the key of the last total entry. *)
Definition window_bound_global (s : EmojiAnalytics) : Prop :=
  forall k, latest (total_counts s) = Some k ->
    Forall (fun e : entry => k - e.1 <= timedelta_minutes (window_size s))
           (total_counts s)
    /\ forall emoji_type d, emoji_counts s !! emoji_type = Some d ->
         Forall (fun e : entry => k - e.1 <= timedelta_minutes (window_size s)) d.

(** What [_save_minute_data] evicts from the series of a category. *)
Definition evicted_by_save (emoji_type : string) (s : EmojiAnalytics) : Z :=
  match current_minute_counts s !! emoji_type with
  | Some n =>
      sum_counts
        (popped (last_minute s - timedelta_minutes (window_size s))
                (series emoji_type s ++ [(last_minute s, n)]))
  | None => 0
  end.

Section Accounting.

Variable fromisoformat : string -> option datetime.

Definition is_add (emoji_type : string) (o : op) : bool :=
  match o with
  | AddEmoji e _ _ => bool_decide (e = emoji_type)
  | _ => false
  end.

(** No call of [get_emoji_data] or [get_total_data]. *)
Definition no_series_query (o : op) : bool :=
  match o with
  | AddEmoji _ _ _ | GetCurrentStats => true
  | GetEmojiData | GetTotalData => false
  end.

(** The [add_emoji] calls for a category in a run. *)
Definition calls (emoji_type : string) (ops : list op) : Z :=
  Z.of_nat (length (filter (fun o => is_add emoji_type o = true) ops)).

(** The counts of a category that one call evicts. *)
Definition evicted_by (emoji_type : string) (o : op) (s : EmojiAnalytics) : Z :=
  match o with
  | AddEmoji _ timestamp_str now =>
      if last_minute s <?
         replace_second_microsecond_0 (parse_timestamp fromisoformat timestamp_str now)
      then evicted_by_save emoji_type s else 0
  | GetEmojiData | GetTotalData => evicted_by_save emoji_type s
  | GetCurrentStats => 0
  end.

(** The counts of a category evicted along a run. *)
Fixpoint evicted (emoji_type : string) (ops : list op) (s : EmojiAnalytics) : Z :=
  match ops with
  | [] => 0
  | o :: ops' =>
      evicted_by emoji_type o s + evicted emoji_type ops' (exec fromisoformat o s)
  end.

(** A category is entirely out of the window: nothing retained, nothing
    open. *)
Definition fell_out (emoji_type : string) (s : EmojiAnalytics) : bool :=
  match series emoji_type s with [] => open_count emoji_type s =? 0 | _ => false end.

(** The [add_emoji] calls for a category since it last fell entirely out of
    the window, counted along a run that has made [n] such calls so far. *)
Fixpoint calls_since_out (emoji_type : string) (ops : list op)
    (s : EmojiAnalytics) (n : Z) : Z :=
  let n0 := if fell_out emoji_type s then 0 else n in
  match ops with
  | [] => n0
  | o :: ops' =>
      calls_since_out emoji_type ops' (exec fromisoformat o s)
        (if is_add emoji_type o then n0 + 1 else n0)
  end.

End Accounting.

(** ** Concurrent callers

    Two threads call [add_emoji] on the shared instance.  A call runs in
    the steps below; [with self.lock] is an acquire that is enabled only
    while the lock is free and a release at the end, and each [+= 1] is a
    load followed by a store, so that the threads may interleave between
    any two steps. *)

Module Concurrent.

Inductive pc : Type :=
  | Parse                         (* lines 23-29, outside the lock *)
  | Acquire (current_minute : Z)  (* line 31 *)
  | Rotate (current_minute : Z)   (* lines 33-36 *)
  | LoadCount                     (* line 39, read *)
  | StoreCount (v : Z)            (* line 39, write *)
  | LoadTotal                     (* line 40, read *)
  | StoreTotal (v : Z)            (* line 40, write *)
  | Release.                      (* end of the with block *)

(** An [add_emoji] call: category, timestamp string, and the wall clock the
    fallback would read. *)
Definition call : Type := (string * string * Z)%type.

Record thread : Type := mk_thread {
  pending : list call;   (* the calls still to make, the current one first *)
  at_pc : pc
}.

Record config : Type := mk_config {
  shared : EmojiAnalytics;
  locked : bool;
  thread1 : thread;
  thread2 : thread
}.

Inductive tid : Type := T1 | T2.

Section Steps.

Variable fromisoformat : string -> option datetime.

(** One step of a thread on the shared instance and its lock; [None] when
    the thread has no call left or waits for the lock. *)
Definition step_thread (th : thread) (s : EmojiAnalytics) (l : bool)
    : option (thread * EmojiAnalytics * bool) :=
  match pending th with
  | [] => None
  | (emoji_type, timestamp_str, now) :: rest =>
      let goto p := mk_thread (pending th) p in
      match at_pc th with
      | Parse =>
          let timestamp := parse_timestamp fromisoformat timestamp_str now in
          Some (goto (Acquire (replace_second_microsecond_0 timestamp)), s, l)
      | Acquire m => if l then None else Some (goto (Rotate m), s, true)
      | Rotate m => Some (goto LoadCount, rotate m s, l)
      | LoadCount =>
          Some (goto (StoreCount (default 0 (current_minute_counts s !! emoji_type))),
                s, l)
      | StoreCount v => Some (goto LoadTotal, store_count emoji_type (v + 1) s, l)
      | LoadTotal => Some (goto (StoreTotal (current_minute_total s)), s, l)
      | StoreTotal v => Some (goto Release, store_total (v + 1) s, l)
      | Release => Some (mk_thread rest Parse, s, false)
      end
  end.

Definition step (t : tid) (c : config) : option config :=
  match t with
  | T1 =>
      '(th, s, l) ← step_thread (thread1 c) (shared c) (locked c);
      Some (mk_config s l th (thread2 c))
  | T2 =>
      '(th, s, l) ← step_thread (thread2 c) (shared c) (locked c);
      Some (mk_config s l (thread1 c) th)
  end.

(** Run a schedule; [None] when it picks a thread that cannot step. *)
Fixpoint run_sched (sched : list tid) (c : config) : option config :=
  match sched with
  | [] => Some c
  | t :: sched' => c' ← step t c; run_sched sched' c'
  end.

(** For comparison only: the same steps if [add_emoji] did not take the
    lock, so that the acquire never waits. *)
Definition step_thread_nolock (th : thread) (s : EmojiAnalytics) (l : bool)
    : option (thread * EmojiAnalytics * bool) :=
  match at_pc th with
  | Acquire m => step_thread th s false
  | _ => step_thread th s l
  end.

Definition step_nolock (t : tid) (c : config) : option config :=
  match t with
  | T1 =>
      '(th, s, l) ← step_thread_nolock (thread1 c) (shared c) (locked c);
      Some (mk_config s l th (thread2 c))
  | T2 =>
      '(th, s, l) ← step_thread_nolock (thread2 c) (shared c) (locked c);
      Some (mk_config s l (thread1 c) th)
  end.

Fixpoint run_sched_nolock (sched : list tid) (c : config) : option config :=
  match sched with
  | [] => Some c
  | t :: sched' => c' ← step_nolock t c; run_sched_nolock sched' c'
  end.

End Steps.

Definition start (s : EmojiAnalytics) (calls1 calls2 : list call) : config :=
  mk_config s false (mk_thread calls1 Parse) (mk_thread calls2 Parse).

(** The call as an operation of the sequential service. *)
Definition to_op (c : call) : op := AddEmoji c.1.1 c.1.2 c.2.

(** Both threads have made all their calls. *)
Definition finished (c : config) : Prop :=
  pending (thread1 c) = [] /\ pending (thread2 c) = [].

End Concurrent.

(** ** Invariant of the interleavings *)

Module ConcurrentInv.
Import Concurrent.

Section Invariant.

Variable fromisoformat : string -> option datetime.
Variable e : string.   (* the category both callers send *)
Variable m : Z.        (* the minute all their timestamps fall in *)
Variable N : Z.        (* the number of calls, both callers together *)

(** A call for category [e] whose timestamp falls in minute [m]. *)
Definition same_call (c : call) : Prop :=
  c.1.1 = e
  /\ replace_second_microsecond_0 (parse_timestamp fromisoformat c.1.2 c.2) = m.

(** The thread holds the lock. *)
Definition in_cs (p : pc) : bool :=
  match p with Parse | Acquire _ => false | _ => true end.

(** The thread has not passed the rotation of its current call. *)
Definition early (p : pc) : bool :=
  match p with Parse | Acquire _ | Rotate _ => true | _ => false end.

(** Increments of the category count the thread has still to make. *)
Definition rc (th : thread) : Z :=
  Z.of_nat (length (pending th))
  - match at_pc th with LoadTotal | StoreTotal _ | Release => 1 | _ => 0 end.

(** Increments of the total the thread has still to make. *)
Definition rt (th : thread) : Z :=
  Z.of_nat (length (pending th))
  - match at_pc th with Release => 1 | _ => 0 end.

(** What a thread knows at its program point: the minute it parsed, and
    the value it loaded, which is still the one in the shared instance. *)
Definition pc_ok (s : EmojiAnalytics) (th : thread) : Prop :=
  match at_pc th with
  | Parse => True
  | Acquire m' | Rotate m' => m' = m /\ pending th <> []
  | StoreCount v => v = open_count e s /\ pending th <> []
  | StoreTotal v => v = current_minute_total s /\ pending th <> []
  | LoadCount | LoadTotal | Release => pending th <> []
  end.

Record inv (s : EmojiAnalytics) (l : bool) (a b : thread) : Prop := mk_inv {
  calls_a : Forall same_call (pending a);
  calls_b : Forall same_call (pending b);
  pc_a : pc_ok s a;
  pc_b : pc_ok s b;
  lock_ok : l = in_cs (at_pc a) || in_cs (at_pc b);
  mutex : in_cs (at_pc a) && in_cs (at_pc b) = false;
  count_ok : open_count e s + rc a + rc b = N;
  total_ok : current_minute_total s + rt a + rt b = N;
  minute_ok :
    m <= last_minute s
    \/ (open_count e s = 0 /\ current_minute_total s = 0
        /\ early (at_pc a) = true /\ early (at_pc b) = true)
}.

(** Steps still to run before both threads are done. *)
Definition pc_left (p : pc) : nat :=
  match p with
  | Parse => 8 | Acquire _ => 7 | Rotate _ => 6 | LoadCount => 5
  | StoreCount _ => 4 | LoadTotal => 3 | StoreTotal _ => 2 | Release => 1
  end.

Definition steps_left (th : thread) : nat :=
  match pending th with
  | [] => 0
  | _ :: rest => 8 * length rest + pc_left (at_pc th)
  end.

(** The invariant on a configuration. *)
Definition cinv (c : config) : Prop :=
  inv (shared c) (locked c) (thread1 c) (thread2 c).

End Invariant.

End ConcurrentInv.

(** ** Invariant of the series *)

(** A series is in order, never ahead of the open-minute marker [L], and
    within the window of its own latest entry. *)
Definition series_ok (w L : Z) (d : list entry) : Prop :=
  ascending d /\ Forall (fun e : entry => e.1 <= L) d /\ window_bound w d.

Definition state_ok (s : EmojiAnalytics) : Prop :=
  series_ok (window_size s) (last_minute s) (total_counts s)
  /\ forall emoji_type d, emoji_counts s !! emoji_type = Some d ->
       series_ok (window_size s) (last_minute s) d.

(** Every count in the bucket and in the series is positive. *)
Definition counts_pos (s : EmojiAnalytics) : Prop :=
  (forall emoji_type n, current_minute_counts s !! emoji_type = Some n -> 0 < n)
  /\ forall emoji_type d, emoji_counts s !! emoji_type = Some d ->
       Forall (fun e : entry => 0 < e.2) d.

(** Keys strictly increasing and all before the open-minute marker [L]:
    what the series look like as long as only [add_emoji] closes minutes. *)
Definition strict_ok (L : Z) (d : list entry) : Prop :=
  StronglySorted (fun a b : entry => a.1 < b.1) d
  /\ Forall (fun e : entry => e.1 < L) d.

Definition strict_state (s : EmojiAnalytics) : Prop :=
  strict_ok (last_minute s) (total_counts s)
  /\ forall emoji_type d, emoji_counts s !! emoji_type = Some d ->
       strict_ok (last_minute s) d.

(** ** Scenarios *)

(** The naive datetime a timestamp string denotes. *)
Definition clock (timestamp_str : string) : Z :=
  match IsoBasic.fromisoformat timestamp_str with
  | Some dt => ticks dt
  | None => 0
  end.

(** The service instance, [EmojiAnalytics()], built at 09:59:30. *)
Definition analytics : EmojiAnalytics := __init__ 3 (clock "2024-01-01T09:59:30").

(** One event of category A at 10:00:00, received one second later. *)
Definition one_event : EmojiAnalytics :=
  run IsoBasic.fromisoformat
    [AddEmoji "A" "2024-01-01T10:00:00" (clock "2024-01-01T10:00:01")]
    analytics.

(** Scenario C: three events of one category and one of another within
    minute 12:00. *)
Definition scenario_C : EmojiAnalytics :=
  run IsoBasic.fromisoformat
    [AddEmoji "🔥" "2024-01-01T12:00:05" (clock "2024-01-01T12:00:06");
     AddEmoji "🔥" "2024-01-01T12:00:15" (clock "2024-01-01T12:00:16");
     AddEmoji "💧" "2024-01-01T12:00:25" (clock "2024-01-01T12:00:26");
     AddEmoji "🔥" "2024-01-01T12:00:35" (clock "2024-01-01T12:00:36")]
    analytics.

(** Category A once at each of 10:00, 10:02, 10:04 and 10:06. *)
Definition every_other_minute : list op :=
  [AddEmoji "A" "2024-01-01T10:00:00" (clock "2024-01-01T10:00:01");
   AddEmoji "A" "2024-01-01T10:02:00" (clock "2024-01-01T10:02:01");
   AddEmoji "A" "2024-01-01T10:04:00" (clock "2024-01-01T10:04:01");
   AddEmoji "A" "2024-01-01T10:06:00" (clock "2024-01-01T10:06:01")].

(** Category A at 10:00, then category B at 10:01, 10:10 and 10:20. *)
Definition idle_category : EmojiAnalytics :=
  run IsoBasic.fromisoformat
    [AddEmoji "A" "2024-01-01T10:00:00" (clock "2024-01-01T10:00:01");
     AddEmoji "B" "2024-01-01T10:01:00" (clock "2024-01-01T10:01:01");
     AddEmoji "B" "2024-01-01T10:10:00" (clock "2024-01-01T10:10:01");
     AddEmoji "B" "2024-01-01T10:20:00" (clock "2024-01-01T10:20:01")]
    analytics.

(** Category A once at each of 10:00, 10:01, 10:02 and 10:03. *)
Definition scenario_A (now1 now2 now3 now4 : Z) : list op :=
  [AddEmoji "A" "2024-01-01T10:00:00" now1;
   AddEmoji "A" "2024-01-01T10:01:00" now2;
   AddEmoji "A" "2024-01-01T10:02:00" now3;
   AddEmoji "A" "2024-01-01T10:03:00" now4].

(** An event stamped in 2099, then one whose timestamp does not parse. *)
Definition after_future_event : EmojiAnalytics :=
  run IsoBasic.fromisoformat
    [AddEmoji "A" "2099-01-01T00:00:00" (clock "2024-01-01T10:00:01")]
    analytics.

Import Concurrent.

(** The 500 calls of one caller, all stamped 10:00:00. *)
Definition burst : list call :=
  replicate 500 ("A"%string, "2024-01-01T10:00:00"%string,
                 clock "2024-01-01T10:00:01").

(** Both callers parse, caller 1 takes the lock and runs its critical
    section while caller 2 waits, then caller 2 runs its own; 500 times
    over. *)
Definition interleaved : list tid :=
  concat (replicate 500
    [T1; T2; T1; T1; T1; T1; T1; T1; T1; T2; T2; T2; T2; T2; T2; T2]).

Definition after_bursts : config :=
  mk_config
    (mk_analytics 3 ∅ [] {[ "A"%string := 1000 ]} 1000
                  (clock "2024-01-01T10:00:00"))
    false (mk_thread [] Parse) (mk_thread [] Parse).

(** ** Sums over the dictionaries *)

(** [sum(f(v) for v in m.values())]. *)
Definition gsum {A : Type} (f : A -> Z) (m : gmap string A) : Z :=
  map_fold (fun _ x acc => f x + acc) 0 m.

(** The events in the open bucket, summed over its categories. *)
Definition bucket_sum (s : EmojiAnalytics) : Z :=
  gsum id (current_minute_counts s).

(** The counts a series holds under the key [t]. *)
Definition at_key (t : Z) (d : list entry) : Z :=
  sum_counts (filter (fun e : entry => e.1 = t) d).

(** The counts all per-category series together hold under the key [t]. *)
Definition categories_at (t : Z) (s : EmojiAnalytics) : Z :=
  gsum (at_key t) (emoji_counts s).

(** What [get_current_stats] reports as [total_emojis]. *)
Definition total_plus_open (s : EmojiAnalytics) : Z :=
  sum_counts (total_counts s) + current_minute_total s.

(** What [_save_minute_data] evicts from the total series. *)
Definition evicted_total_by_save (s : EmojiAnalytics) : Z :=
  if 0 <? current_minute_total s then
    sum_counts
      (popped (last_minute s - timedelta_minutes (window_size s))
              (total_counts s ++ [(last_minute s, current_minute_total s)]))
  else 0.

Section TotalAccounting.

Variable fromisoformat : string -> option datetime.

Definition is_add_any (o : op) : bool :=
  match o with AddEmoji _ _ _ => true | _ => false end.

(** The [add_emoji] calls of a run, whatever the category. *)
Definition add_calls (ops : list op) : Z :=
  Z.of_nat (length (filter (fun o => is_add_any o = true) ops)).

Definition evicted_total_by (o : op) (s : EmojiAnalytics) : Z :=
  match o with
  | AddEmoji _ timestamp_str now =>
      if last_minute s <?
         replace_second_microsecond_0 (parse_timestamp fromisoformat timestamp_str now)
      then evicted_total_by_save s else 0
  | GetEmojiData | GetTotalData => evicted_total_by_save s
  | GetCurrentStats => 0
  end.

(** The totals evicted along a run. *)
Fixpoint evicted_total (ops : list op) (s : EmojiAnalytics) : Z :=
  match ops with
  | [] => 0
  | o :: ops' =>
      evicted_total_by o s + evicted_total ops' (exec fromisoformat o s)
  end.

End TotalAccounting.

(** A call of [get_emoji_data] or [get_total_data]. *)
Definition is_series_query (o : op) : bool :=
  match o with
  | GetEmojiData | GetTotalData => true
  | AddEmoji _ _ _ | GetCurrentStats => false
  end.

(** ** More invariants *)

(** The total of the open bucket is the sum of its category counts, and
    each of those is at least 1. *)
Definition bucket_ok (s : EmojiAnalytics) : Prop :=
  bucket_sum s = current_minute_total s
  /\ forall emoji_type n, current_minute_counts s !! emoji_type = Some n -> 1 <= n.

(** The marker and every key are whole minutes. *)
Definition aligned (s : EmojiAnalytics) : Prop :=
  (MINUTE | last_minute s)
  /\ Forall (fun e : entry => (MINUTE | e.1)) (total_counts s)
  /\ forall emoji_type d, emoji_counts s !! emoji_type = Some d ->
       Forall (fun e : entry => (MINUTE | e.1)) d.

(** [s'] is [s] after [j] polls: same bucket, marker and window, and [j]
    copies of the open bucket behind what the first eviction left. *)
Definition polled_from (s : EmojiAnalytics) (j : nat) (s' : EmojiAnalytics) : Prop :=
  window_size s' = window_size s
  /\ last_minute s' = last_minute s
  /\ current_minute_counts s' = current_minute_counts s
  /\ current_minute_total s' = current_minute_total s
  /\ total_counts s'
     = popleft_while (last_minute s - timedelta_minutes (window_size s))
         (total_counts s)
       ++ replicate j (last_minute s, current_minute_total s)
  /\ forall emoji_type n, current_minute_counts s !! emoji_type = Some n ->
       emoji_counts s' !! emoji_type
       = Some (popleft_while (last_minute s - timedelta_minutes (window_size s))
                 (series emoji_type s)
               ++ replicate j (last_minute s, n)).


(** From some key [H] on, at or below every retained total entry, the
    per-category series and the total series hold the same counts under
    every key. *)
Definition agree (s : EmojiAnalytics) : Prop :=
  exists H,
    H <= last_minute s - timedelta_minutes (window_size s)
    /\ Forall (fun e : entry => H <= e.1) (total_counts s)
    /\ forall t, H <= t -> categories_at t s = at_key t (total_counts s).

(** ** The consumer loop

    [kafka_consumer_thread] takes the deserialized value of each message,
    skips what is falsy or lacks a field, and calls [add_emoji].  A message
    value is a JSON document; the loop looks at its truth value, at whether
    it has a [get] method (only an object has), and at the two fields.  The
    category is taken to be a string when present, as the producer sends
    it. *)

Module Consumer.

(** What [message.value.get(key)] returns. *)
Inductive jfield : Type :=
  | JNone                    (* the key is missing, or null *)
  | JStr (s : string)
  | JOther (truthy : bool).  (* a number, boolean, array or object *)

(** [message.value]. *)
Inductive jvalue : Type :=
  | VFalsy                   (* null, an empty object, array or string, 0, false *)
  | VObject (emoji_type : option string) (timestamp : jfield)
                             (* an object that is not empty *)
  | VOther.                  (* another truthy value: it has no [get] *)

(** A message, with the wall clock at the time it is handled. *)
Record message : Type := mk_message { value : jvalue; arrival : Z }.

(** Python's truth value of a field. *)
Definition truthy (f : jfield) : bool :=
  match f with
  | JNone => false
  | JStr s => negb (String.eqb s "")
  | JOther b => b
  end.

(** An event as the aggregator counts it: category and naive timestamp. *)
Definition event : Type := (string * Z)%type.

(** [foldl] of the locked body of [add_emoji] over events. *)
Definition feed (events : list event) (s : EmojiAnalytics) : EmojiAnalytics :=
  foldl (fun st ev => add_emoji_locked ev.1 ev.2 st) s events.

Section Loop.

Variable fromisoformat : string -> option datetime.

(** [add_emoji] on a field of any type: a timestamp that is not a string
    has no [replace], which the bare [except] turns into the wall clock. *)
Definition effective_timestamp (timestamp : jfield) (now : Z) : Z :=
  match timestamp with
  | JStr timestamp_str => parse_timestamp fromisoformat timestamp_str now
  | _ => now
  end.

(** The event a message is counted as, if it is counted. *)
Definition accepted (m : message) : option event :=
  match value m with
  | VObject (Some emoji_type) timestamp =>
      if negb (String.eqb emoji_type "") && truthy timestamp
      then Some (emoji_type, effective_timestamp timestamp (arrival m))
      else None
  | _ => None
  end.

(** The body of the [for] loop; [None] when it raises (the value is truthy
    and has no [get]). *)
Definition handle (m : message) (s : EmojiAnalytics) : option EmojiAnalytics :=
  match value m with
  | VFalsy => Some s
  | VOther => None
  | VObject emoji_type timestamp =>
      match emoji_type with
      | Some e =>
          if negb (String.eqb e "") && truthy timestamp
          then Some (add_emoji_locked e
                       (effective_timestamp timestamp (arrival m)) s)
          else Some s
      | None => Some s
      end
  end.

(** The loop over the messages delivered so far: the aggregator it leaves
    and whether the thread is still running. *)
Fixpoint kafka_consumer_thread (messages : list message) (s : EmojiAnalytics)
    : EmojiAnalytics * bool :=
  match messages with
  | [] => (s, true)
  | m :: rest =>
      match handle m s with
      | Some s' => kafka_consumer_thread rest s'
      | None => (s, false)
      end
  end.

End Loop.

(** The value has a [get] method or is skipped before it is needed. *)
Definition well_formed (m : message) : bool :=
  match value m with VOther => false | _ => true end.

End Consumer.

(** ** Linearization of concurrent callers *)

Module Linearize.
Import Concurrent ConcurrentInv.

(** [l] interleaves [l1] and [l2], keeping the order of each. *)
Inductive merge {A : Type} : list A -> list A -> list A -> Prop :=
  | merge_nil : merge [] [] []
  | merge_l x l1 l2 l : merge l1 l2 l -> merge (x :: l1) l2 (x :: l)
  | merge_r x l1 l2 l : merge l1 l2 l -> merge l1 (x :: l2) (x :: l).

Section Lin.

Variable fromisoformat : string -> option datetime.
Variable s0 : EmojiAnalytics.   (* the instance before the callers start *)

(** The shared instance while a thread is at [p] in the call [c], when it
    was [base] before the call. *)
Definition partial (p : pc) (c : call) (base : EmojiAnalytics) : EmojiAnalytics :=
  let m := replace_second_microsecond_0
             (parse_timestamp fromisoformat c.1.2 c.2) in
  match p with
  | Parse | Acquire _ | Rotate _ => base
  | LoadCount | StoreCount _ => rotate m base
  | LoadTotal | StoreTotal _ =>
      store_count c.1.1
        (default 0 (current_minute_counts (rotate m base) !! c.1.1) + 1)
        (rotate m base)
  | Release => add_emoji fromisoformat c.1.1 c.1.2 c.2 base
  end.

(** The values a thread holds at [p] are those of its call on [base]. *)
Definition reg_ok (p : pc) (c : call) (base : EmojiAnalytics) : Prop :=
  let m := replace_second_microsecond_0
             (parse_timestamp fromisoformat c.1.2 c.2) in
  match p with
  | Acquire m' | Rotate m' => m' = m
  | StoreCount v => v = default 0 (current_minute_counts (rotate m base) !! c.1.1)
  | StoreTotal v => v = current_minute_total (rotate m base)
  | Parse | LoadCount | LoadTotal | Release => True
  end.

Definition thread_ok (th : thread) (base : EmojiAnalytics) : Prop :=
  match pending th with
  | [] => at_pc th = Parse
  | c :: _ => reg_ok (at_pc th) c base
  end.

Definition view (th : thread) (base : EmojiAnalytics) : EmojiAnalytics :=
  match pending th with
  | [] => base
  | c :: _ => partial (at_pc th) c base
  end.

(** The calls completed so far, in some order [order] that interleaves
    those of the two threads, give the state [base]; the shared instance is
    [base] with the part of its call that the thread in the critical
    section has run. *)
Definition lin (calls_a calls_b : list call) (s : EmojiAnalytics) (l : bool)
    (a b : thread) : Prop :=
  exists done_a done_b order,
    merge done_a done_b order
    /\ calls_a = done_a ++ pending a
    /\ calls_b = done_b ++ pending b
    /\ thread_ok a (run fromisoformat (map to_op order) s0)
    /\ thread_ok b (run fromisoformat (map to_op order) s0)
    /\ l = in_cs (at_pc a) || in_cs (at_pc b)
    /\ in_cs (at_pc a) && in_cs (at_pc b) = false
    /\ s = (if in_cs (at_pc a)
            then view a (run fromisoformat (map to_op order) s0)
            else view b (run fromisoformat (map to_op order) s0)).

End Lin.

End Linearize.

(** ** More scenarios *)

(** Caller 1 sends an event of 10:00, caller 2 one of 10:01. *)
Definition late_caller : list Concurrent.call :=
  [("A"%string, "2024-01-01T10:00:00"%string, clock "2024-01-01T10:01:02")].

Definition early_caller : list Concurrent.call :=
  [("B"%string, "2024-01-01T10:01:00"%string, clock "2024-01-01T10:01:01")].

(** Both parse, then caller 2 runs its critical section before caller 1. *)
Definition second_caller_first : list Concurrent.tid :=
  [T1; T2; T2; T2; T2; T2; T2; T2; T2; T1; T1; T1; T1; T1; T1; T1].

Definition after_two_callers : Concurrent.config :=
  mk_config
    (mk_analytics 3 ∅ [] {[ "A"%string := 1; "B"%string := 1 ]} 2
                  (clock "2024-01-01T10:01:00"))
    false (mk_thread [] Parse) (mk_thread [] Parse).

(** A truthy object, one with an empty category, a falsy value, one with a
    number as timestamp, and one whose timestamp is falsy. *)
Definition sample_messages : list Consumer.message :=
  [Consumer.mk_message
     (Consumer.VObject (Some "A"%string) (Consumer.JStr "2024-01-01T10:00:00"))
     (clock "2024-01-01T10:00:01");
   Consumer.mk_message
     (Consumer.VObject (Some ""%string) (Consumer.JStr "2024-01-01T10:00:00"))
     (clock "2024-01-01T10:00:02");
   Consumer.mk_message Consumer.VFalsy (clock "2024-01-01T10:00:03");
   Consumer.mk_message
     (Consumer.VObject (Some "B"%string) (Consumer.JOther true))
     (clock "2024-01-01T10:00:04");
   Consumer.mk_message
     (Consumer.VObject (Some "C"%string) (Consumer.JOther false))
     (clock "2024-01-01T10:00:05")].

(** No series of a category is empty. *)
Definition series_nonempty (s : EmojiAnalytics) : Prop :=
  forall emoji_type d, emoji_counts s !! emoji_type = Some d -> d <> [].

(** ** Exceptions: the range of [datetime] and [timedelta]

    The operations above are total on unbounded ticks.  In Python
    [timedelta(minutes=n)] raises [OverflowError] when [n] minutes are more
    than 999999999 days either way, and [timestamp - timedelta(...)] raises
    it when the result is before 0001-01-01 or after 9999-12-31.  The
    definitions below are the same code with these two checks, in the option
    monad: [None] is the call raising [OverflowError] (the state a raising
    call leaves behind is not modelled). *)

Module Checked.

(** [datetime.max], 9999-12-31T23:59:59.999999, in ticks. *)
Definition DATETIME_MAX : Z :=
  match IsoBasic.fromisoformat "9999-12-31T23:59:59" with
  | Some dt => ticks dt + 999999
  | None => 0
  end.

(** The ticks of a [datetime] ([datetime.min] is tick 0). *)
Definition representable (t : Z) : bool := (0 <=? t) && (t <=? DATETIME_MAX).

(** [timedelta(minutes=n)] does not raise: its day count, [n // 1440], is
    within 999999999 either way. *)
Definition timedelta_ok (n : Z) : bool :=
  (-999999999 <=? n / 1440) && (n / 1440 <=? 999999999).

(** [timestamp - timedelta(minutes=w)]. *)
Definition cutoff_time (timestamp w : Z) : option Z :=
  if timedelta_ok w && representable (timestamp - timedelta_minutes w)
  then Some (timestamp - timedelta_minutes w)
  else None.

(** One round of the loop of [_save_minute_data]: append, compute the
    cutoff, evict. *)
Definition save_emoji_checked (timestamp w : Z) (emoji_type : string) (count : Z)
    (acc : option (gmap string (list entry))) : option (gmap string (list entry)) :=
  ec ← acc;
  cutoff ← cutoff_time timestamp w;
  Some (<[emoji_type := popleft_while cutoff
                          (default [] (ec !! emoji_type) ++ [(timestamp, count)])]> ec).

Definition _save_minute_data_checked (s : EmojiAnalytics) : option EmojiAnalytics :=
  let timestamp := last_minute s in
  ec ← map_fold (save_emoji_checked timestamp (window_size s))
                (Some (emoji_counts s)) (current_minute_counts s);
  tc ← (if 0 <? current_minute_total s then
          cutoff ← cutoff_time timestamp (window_size s);
          Some (popleft_while cutoff
                  (total_counts s ++ [(timestamp, current_minute_total s)]))
        else Some (total_counts s));
  Some {| window_size := window_size s;
          emoji_counts := ec;
          total_counts := tc;
          current_minute_counts := current_minute_counts s;
          current_minute_total := current_minute_total s;
          last_minute := last_minute s |}.

Section WithParser.

Variable fromisoformat : string -> option datetime.

(** [add_emoji]: the [try] block cannot raise past the bare [except], the
    rotation can. *)
Definition add_emoji_checked (emoji_type timestamp_str : string) (now : Z)
    (s : EmojiAnalytics) : option EmojiAnalytics :=
  let timestamp := parse_timestamp fromisoformat timestamp_str now in
  let current_minute := replace_second_microsecond_0 timestamp in
  s1 ← (if last_minute s <? current_minute then
          s' ← _save_minute_data_checked s;
          Some (set_last_minute current_minute (_reset_current_minute s'))
        else Some s);
  Some (increment emoji_type s1).

Definition exec_checked (o : op) (s : EmojiAnalytics) : option EmojiAnalytics :=
  match o with
  | AddEmoji emoji_type timestamp_str now =>
      add_emoji_checked emoji_type timestamp_str now s
  | GetEmojiData | GetTotalData => _save_minute_data_checked s
  | GetCurrentStats => Some s
  end.

Fixpoint run_checked (ops : list op) (s : EmojiAnalytics) : option EmojiAnalytics :=
  match ops with
  | [] => Some s
  | o :: ops' => s' ← exec_checked o s; run_checked ops' s'
  end.

(** The timestamp an [add_emoji] call works with is a [datetime]. *)
Definition op_representable (o : op) : bool :=
  match o with
  | AddEmoji _ timestamp_str now =>
      representable (parse_timestamp fromisoformat timestamp_str now)
  | _ => true
  end.

End WithParser.

(** What the calls keep: the window, and a marker between the minute of
    construction and [datetime.max]. *)
Definition in_range (w lo : Z) (s : EmojiAnalytics) : Prop :=
  window_size s = w /\ lo <= last_minute s <= DATETIME_MAX.

(** An aggregator with a window of 2000000000 minutes, more than the time
    since 0001-01-01, and one event in its open bucket. *)
Definition huge_window : EmojiAnalytics :=
  run IsoBasic.fromisoformat
    [AddEmoji "A" "2024-01-01T10:00:00" (clock "2024-01-01T10:00:01")]
    (__init__ 2000000000 (clock "2024-01-01T09:59:30")).

End Checked.

(** * Properties *)

(** ** Eviction from the front of a deque *)

Lemma popped_popleft_while cutoff d :
  popped cutoff d ++ popleft_while cutoff d = d.
Proof.
  induction d as [|e d IH]; simpl; [done|].
  destruct (e.1 <? cutoff); simpl; [by rewrite IH | done].
Qed.

Lemma sum_counts_app d1 d2 :
  sum_counts (d1 ++ d2) = sum_counts d1 + sum_counts d2.
Proof. induction d1 as [|e d1 IH]; simpl; [done|]. rewrite IH. lia. Qed.

Lemma sum_counts_popleft_while cutoff d :
  sum_counts (popleft_while cutoff d) + sum_counts (popped cutoff d)
  = sum_counts d.
Proof.
  rewrite <- (popped_popleft_while cutoff d) at 3.
  rewrite sum_counts_app. lia.
Qed.

Lemma popleft_while_suffix cutoff d : popleft_while cutoff d `suffix_of` d.
Proof. exists (popped cutoff d). by rewrite popped_popleft_while. Qed.

Lemma popleft_while_Forall (P : entry -> Prop) cutoff d :
  Forall P d -> Forall P (popleft_while cutoff d).
Proof.
  intros H. destruct (popleft_while_suffix cutoff d) as [pre Hd].
  rewrite Hd in H. by apply Forall_app in H as [_ H].
Qed.

Lemma popleft_while_ascending cutoff d :
  ascending d -> ascending (popleft_while cutoff d).
Proof.
  unfold ascending. intros H.
  destruct (popleft_while_suffix cutoff d) as [pre Hd].
  rewrite Hd in H. by apply StronglySorted_app_1_r in H.
Qed.

(** On a series in order the loop leaves nothing older than the cutoff. *)
Lemma popleft_while_cutoff cutoff d :
  ascending d -> Forall (fun e : entry => cutoff <= e.1) (popleft_while cutoff d).
Proof.
  unfold ascending. induction d as [|e d IH]; simpl; intros H; [done|].
  apply StronglySorted_cons in H as [Hhd Htl].
  destruct (e.1 <? cutoff) eqn:He; [by apply IH|].
  apply Z.ltb_ge in He. constructor; [done|].
  eapply Forall_impl; [exact Hhd|]. simpl. intros x Hx. lia.
Qed.

(** An entry at or after the cutoff stops the loop. *)
Lemma popleft_while_snoc_keep cutoff d e :
  cutoff <= e.1 ->
  popleft_while cutoff (d ++ [e]) = popleft_while cutoff d ++ [e].
Proof.
  intros He. induction d as [|x d IH]; simpl.
  - destruct (e.1 <? cutoff) eqn:E; [apply Z.ltb_lt in E; lia | done].
  - destruct (x.1 <? cutoff); [exact IH | done].
Qed.

Lemma latest_snoc d e : latest (d ++ [e]) = Some e.1.
Proof. unfold latest. by rewrite last_snoc. Qed.

Lemma latest_popleft_while cutoff d k :
  latest (popleft_while cutoff d) = Some k -> latest d = Some k.
Proof.
  unfold latest. destruct (popleft_while_suffix cutoff d) as [pre Hd].
  intros H. rewrite Hd.
  destruct (popleft_while cutoff d) as [|x l] eqn:E using rev_ind; [done|].
  rewrite app_assoc, last_snoc. by rewrite last_snoc in H.
Qed.

(** Entries with the appended key are never evicted when the window is not
    negative, so an append makes the series longer by one such entry. *)
Lemma popleft_while_count_key cutoff k d :
  cutoff <= k ->
  length (filter (fun e : entry => e.1 = k) (popleft_while cutoff d))
  = length (filter (fun e : entry => e.1 = k) d).
Proof.
  intros Hk. induction d as [|e d IH]; simpl; [done|].
  destruct (e.1 <? cutoff) eqn:He; [|done].
  apply Z.ltb_lt in He. rewrite IH.
  rewrite filter_cons_False; [done | lia].
Qed.

(** ** [_save_minute_data] *)

Lemma save_emoji_counts_lookup s emoji_type :
  emoji_counts (_save_minute_data s) !! emoji_type
  = match current_minute_counts s !! emoji_type with
    | Some n =>
        Some (popleft_while (last_minute s - timedelta_minutes (window_size s))
                (series emoji_type s ++ [(last_minute s, n)]))
    | None => emoji_counts s !! emoji_type
    end.
Proof.
  unfold _save_minute_data, series; simpl.
  apply (map_fold_weak_ind
    (fun r m => r !! emoji_type
       = match m !! emoji_type with
         | Some n =>
             Some (popleft_while (last_minute s - timedelta_minutes (window_size s))
                     (default [] (emoji_counts s !! emoji_type)
                        ++ [(last_minute s, n)]))
         | None => emoji_counts s !! emoji_type
         end)).
  - by rewrite lookup_empty.
  - intros i x m r Hi IH. unfold save_emoji.
    destruct (decide (i = emoji_type)) as [->|Hne].
    + rewrite !lookup_insert_eq. rewrite Hi in IH. by rewrite IH.
    + by rewrite !lookup_insert_ne.
Qed.

Lemma save_total_counts s :
  total_counts (_save_minute_data s)
  = if 0 <? current_minute_total s then
      popleft_while (last_minute s - timedelta_minutes (window_size s))
        (total_counts s ++ [(last_minute s, current_minute_total s)])
    else total_counts s.
Proof. done. Qed.

Lemma series_save s emoji_type :
  series emoji_type (_save_minute_data s)
  = match current_minute_counts s !! emoji_type with
    | Some n =>
        popleft_while (last_minute s - timedelta_minutes (window_size s))
          (series emoji_type s ++ [(last_minute s, n)])
    | None => series emoji_type s
    end.
Proof.
  unfold series at 1. rewrite save_emoji_counts_lookup.
  by destruct (current_minute_counts s !! emoji_type).
Qed.

(** ** The series invariant *)

Lemma series_ok_nil w L : series_ok w L [].
Proof.
  repeat split; [constructor | constructor |].
  intros k Hk. discriminate Hk.
Qed.

Lemma series_ok_append w L d n :
  series_ok w L d ->
  series_ok w L (popleft_while (L - timedelta_minutes w) (d ++ [(L, n)])).
Proof.
  intros (Hasc & Hle & _).
  assert (Hasc' : ascending (d ++ [(L, n)])).
  { apply StronglySorted_app_2; [|done|repeat constructor].
    intros x1 x2 Hx1 Hx2. apply list_elem_of_singleton in Hx2 as ->. simpl.
    by apply (proj1 (Forall_forall _ _) Hle). }
  repeat split.
  - by apply popleft_while_ascending.
  - apply popleft_while_Forall, Forall_app. split; [done|].
    constructor; [simpl; lia | constructor].
  - intros k Hk. apply latest_popleft_while in Hk.
    rewrite latest_snoc in Hk. injection Hk as <-. simpl.
    eapply Forall_impl; [by apply popleft_while_cutoff|].
    simpl. intros x Hx. lia.
Qed.

Lemma series_ok_mono w L L' d :
  L <= L' -> series_ok w L d -> series_ok w L' d.
Proof.
  intros HL (Hasc & Hle & Hw). repeat split; [done| |done].
  eapply Forall_impl; [exact Hle|]. simpl. intros x Hx. lia.
Qed.

Lemma state_ok_init w now : state_ok (__init__ w now).
Proof.
  split; simpl; [apply series_ok_nil|].
  intros k d Hk. by rewrite lookup_empty in Hk.
Qed.

Lemma state_ok_save s : state_ok s -> state_ok (_save_minute_data s).
Proof.
  intros [Ht He]. split.
  - rewrite save_total_counts. change (window_size (_save_minute_data s))
      with (window_size s). change (last_minute (_save_minute_data s))
      with (last_minute s).
    destruct (0 <? current_minute_total s); [by apply series_ok_append | done].
  - intros k d. rewrite save_emoji_counts_lookup.
    change (window_size (_save_minute_data s)) with (window_size s).
    change (last_minute (_save_minute_data s)) with (last_minute s).
    destruct (current_minute_counts s !! k) as [n|] eqn:Hk; [|by apply He].
    intros [= <-]. apply series_ok_append. unfold series.
    destruct (emoji_counts s !! k) as [d0|] eqn:Hd; simpl;
      [by eapply He | apply series_ok_nil].
Qed.

Lemma state_ok_rotate m s : state_ok s -> state_ok (rotate m s).
Proof.
  intros H. unfold rotate. destruct (last_minute s <? m) eqn:Hm; [|done].
  apply Z.ltb_lt in Hm. apply state_ok_save in H as [Ht He].
  split; simpl in *.
  - eapply series_ok_mono; [|exact Ht]. lia.
  - intros k d Hk. eapply series_ok_mono; [|by eapply He]. lia.
Qed.

Lemma state_ok_increment emoji_type s :
  state_ok s -> state_ok (increment emoji_type s).
Proof. intros [Ht He]. by split. Qed.

Lemma state_ok_add_emoji_locked emoji_type t s :
  state_ok s -> state_ok (add_emoji_locked emoji_type t s).
Proof. intros H. by apply state_ok_increment, state_ok_rotate. Qed.

Lemma state_ok_exec fromisoformat o s :
  state_ok s -> state_ok (exec fromisoformat o s).
Proof.
  intros H. destruct o; simpl;
    [by apply state_ok_add_emoji_locked | by apply state_ok_save
    | by apply state_ok_save | done].
Qed.

Lemma state_ok_run fromisoformat ops s :
  state_ok s -> state_ok (run fromisoformat ops s).
Proof.
  revert s. induction ops as [|o ops IH]; intros s H; simpl; [done|].
  by apply IH, state_ok_exec.
Qed.

Lemma window_size_exec fromisoformat o s :
  window_size (exec fromisoformat o s) = window_size s.
Proof.
  destruct o; simpl; try done.
  unfold add_emoji, add_emoji_locked, rotate.
  by destruct (last_minute s <? _).
Qed.

Lemma window_size_run fromisoformat ops s :
  window_size (run fromisoformat ops s) = window_size s.
Proof.
  revert s. induction ops as [|o ops IH]; intros s; simpl; [done|].
  by rewrite IH, window_size_exec.
Qed.

(** The rounds of the loop of [_save_minute_data] touch different keys, so
    the order in which the dictionary is walked does not matter. *)
Lemma save_emoji_comm timestamp w k1 n1 k2 n2 (ec : gmap string (list entry)) :
  k1 <> k2 ->
  save_emoji timestamp w k1 n1 (save_emoji timestamp w k2 n2 ec)
  = save_emoji timestamp w k2 n2 (save_emoji timestamp w k1 n1 ec).
Proof.
  intros Hne. unfold save_emoji.
  rewrite !lookup_insert_ne by done. by apply insert_insert_ne.
Qed.

(** With nothing in the open bucket, closing it changes nothing. *)
Lemma save_idle s :
  current_minute_counts s = ∅ -> current_minute_total s <= 0 ->
  _save_minute_data s = s.
Proof.
  intros Hc Ht. destruct s as [w ec tc cmc cmt L]. simpl in *. subst cmc.
  unfold _save_minute_data. simpl. rewrite map_fold_empty.
  destruct (Z.ltb_spec 0 cmt); [lia | done].
Qed.

(** ** [get_current_stats] *)

(** The breakdown has the keys of [emoji_counts], each with its retained
    counts plus its open count. *)
Lemma emoji_breakdown_lookup emoji_type s :
  emoji_breakdown (get_current_stats s).1 !! emoji_type
  = (fun d => sum_counts d + open_count emoji_type s)
      <$> emoji_counts s !! emoji_type.
Proof.
  simpl. rewrite map_lookup_imap.
  by destruct (emoji_counts s !! emoji_type).
Qed.

(** ** Repeated queries *)

(** C1. Two calls of [get_total_data], or of [get_emoji_data], in a row
    with no [add_emoji] between them do not return the same result: every
    call appends the open bucket once more, since no query clears it. *)
Theorem get_data_twice_differs :
  let t := clock "2024-01-01T10:00:00" in
  let first := get_total_data one_event in
  let second := get_total_data first.2 in
  let first_e := get_emoji_data one_event in
  let second_e := get_emoji_data first_e.2 in
  first.1 = [mk_point t 1]
  /\ second.1 = [mk_point t 1; mk_point t 1]
  /\ first_e.1 = {[ "A"%string := [mk_point t 1] ]}
  /\ second_e.1 = {[ "A"%string := [mk_point t 1; mk_point t 1] ]}
  /\ total_counts second.2 <> total_counts first.2.
Proof. vm_compute. repeat split; discriminate. Qed.

(** C2. After one event and one earlier poll, the series returned by
    [get_total_data] and [get_emoji_data] hold the key 10:00 twice: the keys
    are not strictly ascending. *)
Theorem polled_series_repeat_key :
  let polled := (get_total_data one_event).2 in
  let t := clock "2024-01-01T10:00:00" in
  map timestamp (get_total_data polled).1 = [t; t]
  /\ strictly_ascending (map timestamp (get_total_data polled).1) = false
  /\ ((get_emoji_data polled).1 : gmap string (list data_point)) !! "A"%string
     = Some [mk_point t 1; mk_point t 1].
Proof. vm_compute. repeat split. Qed.

(** C4. In scenario C [get_current_stats] returns [total_emojis = 4] but an
    empty [emoji_breakdown]: the breakdown has the keys of [emoji_counts]
    only, and a category that is still only in the open bucket has none. *)
Theorem scenario_C_breakdown_empty :
  (get_current_stats scenario_C).1 = mk_stats 4 ∅ 3
  /\ current_minute_counts scenario_C
     = {[ "🔥"%string := 3; "💧"%string := 1 ]}
  /\ emoji_counts scenario_C = ∅.
Proof. vm_compute. repeat split. Qed.

(** ** Conservation of counts *)

Lemma sum_counts_nonneg d :
  Forall (fun e : entry => 0 < e.2) d -> 0 <= sum_counts d.
Proof. induction 1 as [|e d He _ IH]; simpl; lia. Qed.

Lemma series_pos emoji_type s :
  counts_pos s -> Forall (fun e : entry => 0 < e.2) (series emoji_type s).
Proof.
  intros [_ H]. unfold series.
  destruct (emoji_counts s !! emoji_type) eqn:E; simpl; [by eapply H | constructor].
Qed.

Lemma open_count_nonneg emoji_type s : counts_pos s -> 0 <= open_count emoji_type s.
Proof.
  intros [H _]. unfold open_count.
  destruct (current_minute_counts s !! emoji_type) eqn:E; simpl; [|lia].
  apply H in E. lia.
Qed.

Lemma evicted_by_save_nonneg emoji_type s :
  counts_pos s -> 0 <= evicted_by_save emoji_type s.
Proof.
  intros H. unfold evicted_by_save.
  destruct (current_minute_counts s !! emoji_type) as [n|] eqn:E; [|lia].
  apply sum_counts_nonneg.
  assert (Hall : Forall (fun e : entry => 0 < e.2)
                   (series emoji_type s ++ [(last_minute s, n)])).
  { apply Forall_app. split; [by apply series_pos|].
    constructor; [|constructor]. simpl. by eapply (proj1 H). }
  rewrite <- (popped_popleft_while
    (last_minute s - timedelta_minutes (window_size s))) in Hall.
  by apply Forall_app in Hall as [Hall _].
Qed.

Lemma counts_pos_save s : counts_pos s -> counts_pos (_save_minute_data s).
Proof.
  intros H. split; [exact (proj1 H)|].
  intros k d. rewrite save_emoji_counts_lookup.
  destruct (current_minute_counts s !! k) as [n|] eqn:E; [|by apply H].
  intros [= <-]. apply popleft_while_Forall, Forall_app.
  split; [by apply series_pos|].
  constructor; [|constructor]. simpl. by eapply (proj1 H).
Qed.

Lemma counts_pos_rotate m s : counts_pos s -> counts_pos (rotate m s).
Proof.
  intros H. unfold rotate. destruct (last_minute s <? m); [|done].
  apply counts_pos_save in H as [_ H]. split; [|exact H].
  simpl. intros k n Hk. by rewrite lookup_empty in Hk.
Qed.

Lemma counts_pos_increment emoji_type s :
  counts_pos s -> counts_pos (increment emoji_type s).
Proof.
  intros H. split; [|exact (proj2 H)]. simpl. intros k n.
  destruct (decide (emoji_type = k)) as [->|Hne].
  - rewrite lookup_insert_eq. intros [= <-].
    pose proof (open_count_nonneg k s H) as Hn. unfold open_count in Hn. lia.
  - rewrite lookup_insert_ne by done. apply H.
Qed.

Lemma counts_pos_exec fromisoformat o s :
  counts_pos s -> counts_pos (exec fromisoformat o s).
Proof.
  intros H. destruct o; simpl;
    [by apply counts_pos_increment, counts_pos_rotate
    | by apply counts_pos_save | by apply counts_pos_save | done].
Qed.

Lemma counts_pos_init w now : counts_pos (__init__ w now).
Proof. split; simpl; intros k x Hk; by rewrite lookup_empty in Hk. Qed.

(** [_save_minute_data] moves the open count of a category into its
    series, less what it evicts. *)
Lemma retained_save emoji_type s :
  sum_counts (series emoji_type (_save_minute_data s))
  + evicted_by_save emoji_type s
  = sum_counts (series emoji_type s) + open_count emoji_type s.
Proof.
  rewrite series_save. unfold evicted_by_save, open_count.
  destruct (current_minute_counts s !! emoji_type) as [n|]; simpl; [|lia].
  rewrite sum_counts_popleft_while, sum_counts_app. simpl. lia.
Qed.

Lemma conservation_rotate emoji_type m s :
  retained_plus_open emoji_type (rotate m s)
  + (if last_minute s <? m then evicted_by_save emoji_type s else 0)
  = retained_plus_open emoji_type s.
Proof.
  unfold rotate. destruct (last_minute s <? m); [|lia].
  pose proof (retained_save emoji_type s) as H.
  unfold retained_plus_open.
  change (series emoji_type (set_last_minute m
            (_reset_current_minute (_save_minute_data s))))
    with (series emoji_type (_save_minute_data s)).
  unfold open_count at 1. simpl. rewrite lookup_empty. simpl. lia.
Qed.

Lemma conservation_increment emoji_type e s :
  retained_plus_open emoji_type (increment e s)
  = retained_plus_open emoji_type s
    + (if bool_decide (e = emoji_type) then 1 else 0).
Proof.
  unfold retained_plus_open, open_count, series. simpl.
  case_bool_decide as He.
  - subst e. rewrite lookup_insert_eq. simpl. lia.
  - rewrite lookup_insert_ne by done. lia.
Qed.

Lemma conservation_exec fromisoformat emoji_type o s :
  no_series_query o = true ->
  retained_plus_open emoji_type (exec fromisoformat o s)
  + evicted_by fromisoformat emoji_type o s
  = retained_plus_open emoji_type s
    + (if is_add emoji_type o then 1 else 0).
Proof.
  destruct o as [e ts now| | |]; simpl; try discriminate; intros _; [|lia].
  unfold add_emoji, add_emoji_locked. rewrite conservation_increment.
  pose proof (conservation_rotate emoji_type
    (replace_second_microsecond_0 (parse_timestamp fromisoformat ts now)) s).
  lia.
Qed.

Lemma calls_cons emoji_type o ops :
  calls emoji_type (o :: ops)
  = (if is_add emoji_type o then 1 else 0) + calls emoji_type ops.
Proof.
  unfold calls. destruct (is_add emoji_type o) eqn:E.
  - rewrite filter_cons_True by done. simpl length. lia.
  - rewrite filter_cons_False by (rewrite E; discriminate). lia.
Qed.

Lemma conservation_run fromisoformat emoji_type ops s :
  Forall (fun o => no_series_query o = true) ops ->
  retained_plus_open emoji_type (run fromisoformat ops s)
  + evicted fromisoformat emoji_type ops s
  = retained_plus_open emoji_type s + calls emoji_type ops.
Proof.
  intros H. revert s. induction H as [|o ops Ho _ IH]; intros s.
  - unfold calls. simpl. lia.
  - rewrite calls_cons. simpl.
    pose proof (IH (exec fromisoformat o s)) as IH'.
    pose proof (conservation_exec fromisoformat emoji_type o s Ho). lia.
Qed.

Lemma evicted_nonneg fromisoformat emoji_type ops s :
  counts_pos s -> 0 <= evicted fromisoformat emoji_type ops s.
Proof.
  revert s. induction ops as [|o ops IH]; intros s H; simpl; [lia|].
  pose proof (IH _ (counts_pos_exec fromisoformat o s H)).
  pose proof (evicted_by_save_nonneg emoji_type s H).
  assert (0 <= evicted_by fromisoformat emoji_type o s); [|lia].
  destruct o; simpl; try lia. by destruct (last_minute s <? _).
Qed.

(** C3, as stated, fails: with a window of 3 minutes and one event of A
    every other minute, the category never leaves the window, four calls
    were made for it, and retained plus open counts add up to 3 (the entry
    of 10:00 was evicted at 10:06). *)
Lemma conservation_fails_on_partial_eviction :
  retained_plus_open "A" (run IsoBasic.fromisoformat every_other_minute analytics) = 3
  /\ calls_since_out IsoBasic.fromisoformat "A" every_other_minute analytics 0 = 4
  /\ series "A" (run IsoBasic.fromisoformat every_other_minute analytics)
     = [(clock "2024-01-01T10:02:00", 1); (clock "2024-01-01T10:04:00", 1)].
Proof. vm_compute. repeat split. Qed.

(** C3, amended. From a new aggregator and along any sequence of
    [add_emoji] and [get_current_stats] calls, the retained counts of a
    category plus its open count equal the number of [add_emoji] calls for
    it less the counts of its entries evicted so far, and what was evicted
    is not negative: no event is counted twice, and an event is counted
    zero times only once the entry of its minute has been evicted. *)
Theorem conservation_less_evicted
    (fromisoformat : string -> option datetime) (w now0 : Z)
    (emoji_type : string) (ops : list op) :
  Forall (fun o => no_series_query o = true) ops ->
  retained_plus_open emoji_type (run fromisoformat ops (__init__ w now0))
  = calls emoji_type ops - evicted fromisoformat emoji_type ops (__init__ w now0)
  /\ 0 <= evicted fromisoformat emoji_type ops (__init__ w now0).
Proof.
  intros H.
  pose proof (conservation_run fromisoformat emoji_type ops (__init__ w now0) H) as Hc.
  pose proof (evicted_nonneg fromisoformat emoji_type ops (__init__ w now0)
                (counts_pos_init w now0)) as He.
  split; [|exact He].
  change (retained_plus_open emoji_type (__init__ w now0)) with 0 in Hc.
  lia.
Qed.

Lemma conservation_less_evicted_witness :
  retained_plus_open "A" (run IsoBasic.fromisoformat every_other_minute analytics)
  = calls "A" every_other_minute
    - evicted IsoBasic.fromisoformat "A" every_other_minute analytics
  /\ 0 <= evicted IsoBasic.fromisoformat "A" every_other_minute analytics.
Proof.
  apply (conservation_less_evicted IsoBasic.fromisoformat 3
           (clock "2024-01-01T09:59:30") "A" every_other_minute).
  repeat constructor.
Defined.

(** ** Keys of the series *)

Lemma popleft_while_StronglySorted (R : relation entry) cutoff d :
  StronglySorted R d -> StronglySorted R (popleft_while cutoff d).
Proof.
  intros H. destruct (popleft_while_suffix cutoff d) as [pre Hd].
  rewrite Hd in H. by apply StronglySorted_app_1_r in H.
Qed.

Lemma strict_ok_nil L : strict_ok L [].
Proof. split; constructor. Qed.

Lemma strict_ok_mono L L' d : L <= L' -> strict_ok L d -> strict_ok L' d.
Proof.
  intros HL [Hs Hlt]. split; [done|].
  eapply Forall_impl; [exact Hlt|]. simpl. intros x Hx. lia.
Qed.

Lemma strict_snoc L d n :
  strict_ok L d -> StronglySorted (fun a b : entry => a.1 < b.1) (d ++ [(L, n)]).
Proof.
  intros [Hs Hlt]. apply StronglySorted_app_2; [|done|repeat constructor].
  intros x1 x2 Hx1 Hx2. apply list_elem_of_singleton in Hx2 as ->. simpl.
  by apply (proj1 (Forall_forall _ _) Hlt).
Qed.

Lemma strict_ok_append cutoff L L' d n :
  L < L' -> strict_ok L d ->
  strict_ok L' (popleft_while cutoff (d ++ [(L, n)])).
Proof.
  intros HL H. split.
  - by apply popleft_while_StronglySorted, strict_snoc.
  - apply popleft_while_Forall, Forall_app. split.
    + eapply Forall_impl; [exact (proj2 H)|]. simpl. intros x Hx. lia.
    + constructor; [simpl; lia | constructor].
Qed.

Lemma strict_state_init w now : strict_state (__init__ w now).
Proof.
  split; simpl; [apply strict_ok_nil|].
  intros k d Hk. by rewrite lookup_empty in Hk.
Qed.

Lemma strict_state_rotate m s : strict_state s -> strict_state (rotate m s).
Proof.
  intros [Ht He]. unfold rotate.
  destruct (Z.ltb_spec (last_minute s) m) as [Hlt|]; [|done].
  split; simpl.
  - destruct (0 <? current_minute_total s);
      [by apply strict_ok_append | eapply strict_ok_mono; [|exact Ht]; lia].
  - intros k d. change (map_fold _ _ _) with (emoji_counts (_save_minute_data s)).
    rewrite save_emoji_counts_lookup.
    destruct (current_minute_counts s !! k) as [n|] eqn:Hk.
    + intros [= <-]. apply strict_ok_append; [done|]. unfold series.
      destruct (emoji_counts s !! k) as [d0|] eqn:Hd; simpl;
        [by eapply He | apply strict_ok_nil].
    + intros Hd. eapply strict_ok_mono; [|by eapply He]. lia.
Qed.

Lemma strict_state_exec fromisoformat o s :
  no_series_query o = true -> strict_state s ->
  strict_state (exec fromisoformat o s).
Proof.
  destruct o; simpl; try discriminate; intros _ H; [|done].
  unfold add_emoji, add_emoji_locked.
  by destruct (strict_state_rotate
       (replace_second_microsecond_0
          (parse_timestamp fromisoformat timestamp_str now)) s H).
Qed.

Lemma strict_state_run fromisoformat ops s :
  Forall (fun o => no_series_query o = true) ops -> strict_state s ->
  strict_state (run fromisoformat ops s).
Proof.
  intros H. revert s. induction H as [|o ops Ho _ IH]; intros s Hs; [done|].
  simpl. by apply IH, strict_state_exec.
Qed.

Lemma strictly_ascending_sorted (d : list entry) :
  StronglySorted (fun a b : entry => a.1 < b.1) d ->
  strictly_ascending (map timestamp (map to_point d)) = true.
Proof.
  induction 1 as [|e d Hd IH Hhd]; [done|].
  destruct d as [|e2 d2]; [done|].
  simpl in *. apply Forall_inv in Hhd. rewrite IH.
  apply andb_true_intro. split; [by apply Z.ltb_lt | done].
Qed.

(** X1. After any sequence of operations the keys of every series are in
    non-decreasing order and none is later than the open-minute marker:
    entries are appended at the marker, and the marker never moves back. *)
Theorem series_keys_in_order
    (fromisoformat : string -> option datetime) (w now0 : Z) (ops : list op) :
  (ascending (total_counts (run fromisoformat ops (__init__ w now0)))
   /\ Forall (fun e : entry =>
                e.1 <= last_minute (run fromisoformat ops (__init__ w now0)))
        (total_counts (run fromisoformat ops (__init__ w now0))))
  /\ forall emoji_type d,
       emoji_counts (run fromisoformat ops (__init__ w now0)) !! emoji_type
       = Some d ->
       ascending d
       /\ Forall (fun e : entry =>
                    e.1 <= last_minute (run fromisoformat ops (__init__ w now0))) d.
Proof.
  pose proof (state_ok_run fromisoformat ops _ (state_ok_init w now0)) as [Ht He].
  split; [split; apply Ht|].
  intros k d Hk. destruct (He k d Hk) as (H1 & H2 & _). by split.
Qed.

Lemma series_keys_in_order_witness :
  ascending (total_counts idle_category)
  /\ ascending [(clock "2024-01-01T10:00:00", 1)].
Proof.
  destruct (series_keys_in_order IsoBasic.fromisoformat 3
              (clock "2024-01-01T09:59:30")
              [AddEmoji "A" "2024-01-01T10:00:00" (clock "2024-01-01T10:00:01");
               AddEmoji "B" "2024-01-01T10:01:00" (clock "2024-01-01T10:01:01");
               AddEmoji "B" "2024-01-01T10:10:00" (clock "2024-01-01T10:10:01");
               AddEmoji "B" "2024-01-01T10:20:00" (clock "2024-01-01T10:20:01")])
    as [[Ht _] He].
  split; [exact Ht|].
  apply (He "A"%string). vm_compute. reflexivity.
Defined.

(** X2. As long as no [get_emoji_data] or [get_total_data] call was made,
    the series these two return have strictly ascending keys: repeated keys come
    from the queries alone. *)
Theorem first_poll_keys_strictly_ascending
    (fromisoformat : string -> option datetime) (w now0 : Z) (ops : list op) :
  Forall (fun o => no_series_query o = true) ops ->
  strictly_ascending
    (map timestamp (get_total_data (run fromisoformat ops (__init__ w now0))).1)
  = true
  /\ forall emoji_type d,
       (get_emoji_data (run fromisoformat ops (__init__ w now0))).1 !! emoji_type
       = Some d ->
       strictly_ascending (map timestamp d) = true.
Proof.
  intros Hops.
  pose proof (strict_state_run fromisoformat ops _ Hops (strict_state_init w now0))
    as [Ht He].
  set (s := run fromisoformat ops (__init__ w now0)) in *.
  split.
  - apply strictly_ascending_sorted. simpl.
    destruct (0 <? current_minute_total s); [|apply Ht].
    by apply popleft_while_StronglySorted, strict_snoc.
  - intros k d.
    change (get_emoji_data s).1
      with (map to_point <$> emoji_counts (_save_minute_data s)).
    rewrite lookup_fmap, save_emoji_counts_lookup.
    destruct (current_minute_counts s !! k) as [n|] eqn:Hk.
    + simpl. intros [= <-]. apply strictly_ascending_sorted.
      apply popleft_while_StronglySorted, strict_snoc. unfold series.
      destruct (emoji_counts s !! k) as [d0|] eqn:Hd; simpl;
        [by eapply He | apply strict_ok_nil].
    + destruct (emoji_counts s !! k) as [d0|] eqn:Hd; [|discriminate].
      simpl. intros [= <-]. apply strictly_ascending_sorted. by eapply He.
Qed.

Lemma first_poll_keys_strictly_ascending_witness :
  strictly_ascending
    (map timestamp
       (get_total_data
          (run IsoBasic.fromisoformat every_other_minute
             (__init__ 3 (clock "2024-01-01T09:59:30")))).1)
  = true.
Proof.
  apply (first_poll_keys_strictly_ascending IsoBasic.fromisoformat 3
           (clock "2024-01-01T09:59:30") every_other_minute).
  repeat constructor.
Defined.

(** Scenario B: with no event recorded, [get_current_stats] returns a zero
    total, an empty breakdown and the configured window. *)
Theorem scenario_B_empty_summary (w now : Z) :
  (get_current_stats (__init__ w now)).1 = mk_stats 0 ∅ w.
Proof. reflexivity. Qed.

(** X4. Each [get_emoji_data] or [get_total_data] call counts the open
    bucket once more: afterwards the retained counts of a category plus its open
    count exceed what they were by its open count, less what was evicted. *)
Theorem poll_counts_open_bucket_again (emoji_type : string) (s : EmojiAnalytics) :
  retained_plus_open emoji_type (get_total_data s).2
  + evicted_by_save emoji_type s
  = retained_plus_open emoji_type s + open_count emoji_type s
  /\ (get_emoji_data s).2 = (get_total_data s).2.
Proof.
  split; [|done]. unfold retained_plus_open. simpl snd.
  pose proof (retained_save emoji_type s) as H.
  change (open_count emoji_type (_save_minute_data s))
    with (open_count emoji_type s). lia.
Qed.

(** ** The window bound *)

(** C5. The window bound does not hold for every series: the rotation
    evicts only from the series it appends to, so the series of a category
    with no event in the minute being closed is not touched, against the
    comment of line 48 and what the total series gets.  After the events of
    [idle_category] (window 3; A at 10:00, B at 10:01, 10:10 and 10:20) the
    latest closed minute is 10:10 and category A still holds its entry of
    10:00, ten minutes older. *)
Lemma idle_category_outlives_window :
  latest (total_counts idle_category) = Some (clock "2024-01-01T10:10:00")
  /\ emoji_counts idle_category !! "A"%string
     = Some [(clock "2024-01-01T10:00:00", 1)]
  /\ ~ window_bound_global idle_category.
Proof.
  split; [vm_compute; reflexivity|]. split; [vm_compute; reflexivity|].
  intros H.
  destruct (H (clock "2024-01-01T10:10:00")) as [_ HA]; [vm_compute; reflexivity|].
  specialize (HA "A"%string [(clock "2024-01-01T10:00:00", 1)]).
  apply Forall_inv in HA; [|vm_compute; reflexivity].
  vm_compute in HA. by apply HA.
Qed.

(** X19. After any sequence of operations on a new aggregator, every
    entry of the total series and of every per-category series is at most
    [window_size] minutes older than the latest entry of the same series. *)
Theorem window_bound_per_series
    (fromisoformat : string -> option datetime) (w now0 : Z) (ops : list op) :
  window_bound w (total_counts (run fromisoformat ops (__init__ w now0)))
  /\ forall emoji_type d,
       emoji_counts (run fromisoformat ops (__init__ w now0)) !! emoji_type = Some d ->
       window_bound w d.
Proof.
  pose proof (state_ok_run fromisoformat ops _ (state_ok_init w now0)) as [Ht He].
  rewrite window_size_run in Ht, He. simpl in Ht, He.
  split; [apply Ht|]. intros k d Hk. by eapply He.
Qed.

Lemma window_bound_per_series_witness :
  window_bound 3 (total_counts idle_category)
  /\ window_bound 3 [(clock "2024-01-01T10:00:00", 1)].
Proof.
  destruct (window_bound_per_series IsoBasic.fromisoformat 3
              (clock "2024-01-01T09:59:30")
              [AddEmoji "A" "2024-01-01T10:00:00" (clock "2024-01-01T10:00:01");
               AddEmoji "B" "2024-01-01T10:01:00" (clock "2024-01-01T10:01:01");
               AddEmoji "B" "2024-01-01T10:10:00" (clock "2024-01-01T10:10:01");
               AddEmoji "B" "2024-01-01T10:20:00" (clock "2024-01-01T10:20:01")])
    as [Ht He].
  split; [exact Ht|].
  apply (He "A"%string). vm_compute. reflexivity.
Defined.

(** ** Scenario A and the strict cutoff *)

(** C6, as stated, fails: the total series returned after the event of
    10:03 still starts with the entry of 10:00. *)
Lemma scenario_A_keeps_first_minute :
  map timestamp
    (get_total_data
       (run IsoBasic.fromisoformat
          (scenario_A (clock "2024-01-01T10:00:01") (clock "2024-01-01T10:01:01")
                      (clock "2024-01-01T10:02:01") (clock "2024-01-01T10:03:01"))
          analytics)).1
  <> [clock "2024-01-01T10:01:00"; clock "2024-01-01T10:02:00";
      clock "2024-01-01T10:03:00"].
Proof. vm_compute. discriminate. Qed.

Lemma first_event_state now0 now :
  replace_second_microsecond_0 now0 <= clock "2024-01-01T10:00:00" ->
  add_emoji IsoBasic.fromisoformat "A" "2024-01-01T10:00:00" now (__init__ 3 now0)
  = mk_analytics 3 ∅ [] {[ "A"%string := 1 ]} 1 (clock "2024-01-01T10:00:00").
Proof.
  intros H. unfold add_emoji, add_emoji_locked.
  replace (replace_second_microsecond_0
             (parse_timestamp IsoBasic.fromisoformat "2024-01-01T10:00:00" now))
    with (clock "2024-01-01T10:00:00") by (vm_compute; reflexivity).
  unfold rotate, __init__. simpl last_minute.
  generalize dependent (replace_second_microsecond_0 now0). intros L0 H.
  destruct (Z.ltb_spec L0 (clock "2024-01-01T10:00:00")) as [Hlt|Hge].
  - reflexivity.
  - assert (L0 = clock "2024-01-01T10:00:00") as -> by lia. reflexivity.
Qed.

(** C6, amended. With a window of 3 and an aggregator built no later than
    minute 10:00, one event of A in each of the minutes 10:00 to 10:03
    leaves [get_total_data] with the four entries 10:00, 10:01, 10:02 and
    10:03: the cutoff is 10:03 - 3 = 10:00 and only entries strictly older
    than the cutoff are evicted. *)
Theorem scenario_A_total_series (now0 now1 now2 now3 now4 : Z) :
  replace_second_microsecond_0 now0 <= clock "2024-01-01T10:00:00" ->
  (get_total_data
     (run IsoBasic.fromisoformat (scenario_A now1 now2 now3 now4) (__init__ 3 now0))).1
  = [mk_point (clock "2024-01-01T10:00:00") 1;
     mk_point (clock "2024-01-01T10:01:00") 1;
     mk_point (clock "2024-01-01T10:02:00") 1;
     mk_point (clock "2024-01-01T10:03:00") 1].
Proof.
  intros H. unfold scenario_A, run. simpl foldl.
  rewrite (first_event_state now0 now1 H).
  vm_compute. reflexivity.
Qed.

Lemma scenario_A_total_series_witness :
  (get_total_data
     (run IsoBasic.fromisoformat
        (scenario_A (clock "2024-01-01T10:00:01") (clock "2024-01-01T10:01:01")
                    (clock "2024-01-01T10:02:01") (clock "2024-01-01T10:03:01"))
        (__init__ 3 (clock "2024-01-01T09:59:30")))).1
  = [mk_point (clock "2024-01-01T10:00:00") 1;
     mk_point (clock "2024-01-01T10:01:00") 1;
     mk_point (clock "2024-01-01T10:02:00") 1;
     mk_point (clock "2024-01-01T10:03:00") 1].
Proof.
  apply (scenario_A_total_series (clock "2024-01-01T09:59:30")).
  vm_compute. discriminate.
Defined.

(** ** Late events and the fallback timestamp *)

(** C7. An [add_emoji] call whose timestamp parses to a minute at or
    before the open one (however old, also a minute closed and evicted long
    ago) rotates nothing: the series, the window size and the open-minute
    marker stay as they are, and the category count and the total of the
    open bucket go up by one. *)
Theorem late_event_folds_into_open_bucket
    (fromisoformat : string -> option datetime)
    (emoji_type timestamp_str : string) (now : Z) (s : EmojiAnalytics)
    (dt : datetime) :
  fromisoformat (replace_Z timestamp_str) = Some dt ->
  replace_second_microsecond_0 (replace_tzinfo_None dt) <= last_minute s ->
  emoji_counts (add_emoji fromisoformat emoji_type timestamp_str now s)
  = emoji_counts s
  /\ total_counts (add_emoji fromisoformat emoji_type timestamp_str now s)
     = total_counts s
  /\ last_minute (add_emoji fromisoformat emoji_type timestamp_str now s)
     = last_minute s
  /\ window_size (add_emoji fromisoformat emoji_type timestamp_str now s)
     = window_size s
  /\ current_minute_counts (add_emoji fromisoformat emoji_type timestamp_str now s)
     = <[emoji_type := open_count emoji_type s + 1]> (current_minute_counts s)
  /\ current_minute_total (add_emoji fromisoformat emoji_type timestamp_str now s)
     = current_minute_total s + 1.
Proof.
  intros Hparse Hle. unfold add_emoji, parse_timestamp. rewrite Hparse.
  unfold add_emoji_locked, rotate.
  destruct (Z.ltb_spec (last_minute s)
              (replace_second_microsecond_0 (replace_tzinfo_None dt))); [lia|].
  repeat split.
Qed.

(** An event stamped 10:00 arrives after the minutes up to 10:06 were
    opened, when the entry of 10:00 is already evicted. *)
Lemma late_event_folds_into_open_bucket_witness :
  let s := run IsoBasic.fromisoformat every_other_minute analytics in
  let s' := add_emoji IsoBasic.fromisoformat "A" "2024-01-01T10:00:30Z"
              (clock "2024-01-01T10:06:05") s in
  emoji_counts s' = emoji_counts s
  /\ total_counts s' = total_counts s
  /\ last_minute s' = last_minute s
  /\ window_size s' = window_size s
  /\ current_minute_counts s'
     = <[ "A"%string := open_count "A" s + 1]> (current_minute_counts s)
  /\ current_minute_total s' = current_minute_total s + 1.
Proof.
  apply (late_event_folds_into_open_bucket IsoBasic.fromisoformat "A"
           "2024-01-01T10:00:30Z" (clock "2024-01-01T10:06:05")
           (run IsoBasic.fromisoformat every_other_minute analytics)
           (mk_datetime (clock "2024-01-01T10:00:30") (Some 0))).
  - vm_compute. reflexivity.
  - vm_compute. discriminate.
Defined.

(** ** When a call raises *)

Module CheckedProofs.
Import Checked.

Lemma DATETIME_MAX_eq : DATETIME_MAX = 315537897599999999.
Proof. vm_compute. reflexivity. Qed.

Lemma cutoff_time_some timestamp w cutoff :
  cutoff_time timestamp w = Some cutoff ->
  cutoff = timestamp - timedelta_minutes w.
Proof.
  unfold cutoff_time.
  destruct (timedelta_ok w && representable (timestamp - timedelta_minutes w));
    [|discriminate].
  by intros [= <-].
Qed.

Lemma save_emoji_fold_checked_some timestamp w cutoff
    (ec : gmap string (list entry)) (cmc : gmap string Z) :
  cutoff_time timestamp w = Some cutoff ->
  map_fold (save_emoji_checked timestamp w) (Some ec) cmc
  = Some (map_fold (save_emoji timestamp w) ec cmc).
Proof.
  intros Hc.
  apply (map_fold_weak_ind
    (fun r m => r = Some (map_fold (save_emoji timestamp w) ec m))).
  - by rewrite map_fold_empty.
  - intros k n m r Hk ->. unfold save_emoji_checked. simpl. rewrite Hc. simpl.
    rewrite map_fold_insert_L; [|intros; by apply save_emoji_comm|done].
    by rewrite (cutoff_time_some _ _ _ Hc).
Qed.

Lemma save_emoji_fold_checked_none timestamp w
    (ec : gmap string (list entry)) (cmc : gmap string Z) :
  cutoff_time timestamp w = None -> cmc <> ∅ ->
  map_fold (save_emoji_checked timestamp w) (Some ec) cmc = None.
Proof.
  intros Hc.
  apply (map_fold_weak_ind (fun r m => m <> ∅ -> r = None)); [done|].
  intros k n m r Hk _ _. unfold save_emoji_checked.
  destruct r; simpl; [by rewrite Hc | done].
Qed.

(** With a representable cutoff the checked code returns what the total
    code returns. *)
Lemma save_checked_returns s cutoff :
  cutoff_time (last_minute s) (window_size s) = Some cutoff ->
  _save_minute_data_checked s = Some (_save_minute_data s).
Proof.
  intros Hc. unfold _save_minute_data_checked, _save_minute_data.
  rewrite (save_emoji_fold_checked_some _ _ cutoff) by done. simpl.
  rewrite Hc. simpl. rewrite (cutoff_time_some _ _ _ Hc).
  by destruct (0 <? current_minute_total s).
Qed.

(** With nothing in the open bucket no cutoff is computed. *)
Lemma save_checked_idle s :
  current_minute_counts s = ∅ -> current_minute_total s <= 0 ->
  _save_minute_data_checked s = Some (_save_minute_data s).
Proof.
  intros He Ht. unfold _save_minute_data_checked, _save_minute_data.
  rewrite He, !map_fold_empty. simpl.
  destruct (Z.ltb_spec 0 (current_minute_total s)); [lia|done].
Qed.

(** With something in the open bucket and no representable cutoff, closing
    the minute raises. *)
Lemma save_checked_raises s :
  cutoff_time (last_minute s) (window_size s) = None ->
  current_minute_counts s <> ∅ \/ 0 < current_minute_total s ->
  _save_minute_data_checked s = None.
Proof.
  intros Hc Hor. unfold _save_minute_data_checked.
  destruct (decide (current_minute_counts s = ∅)) as [He|Hne].
  - destruct Hor as [|Ht]; [done|]. rewrite He, map_fold_empty. simpl.
    apply Z.ltb_lt in Ht. by rewrite Ht, Hc.
  - by rewrite save_emoji_fold_checked_none.
Qed.

(** The three cases together. *)
Lemma save_checked_cases s :
  (cutoff_time (last_minute s) (window_size s) = None
   /\ (current_minute_counts s <> ∅ \/ 0 < current_minute_total s)
   /\ _save_minute_data_checked s = None)
  \/ _save_minute_data_checked s = Some (_save_minute_data s).
Proof.
  destruct (cutoff_time (last_minute s) (window_size s)) as [c|] eqn:Hc.
  { right. by eapply save_checked_returns. }
  destruct (decide (current_minute_counts s = ∅)) as [He|Hne].
  - destruct (Z.ltb_spec 0 (current_minute_total s)) as [Ht|Ht].
    + left. split; [done|]. split; [by right|].
      apply save_checked_raises; [done | by right].
    + right. by apply save_checked_idle.
  - left. split; [done|]. split; [by left|].
    apply save_checked_raises; [done | by left].
Qed.

(** Whatever the checked code returns, the total code returns. *)
Lemma save_checked_refines s s' :
  _save_minute_data_checked s = Some s' -> s' = _save_minute_data s.
Proof.
  destruct (save_checked_cases s) as [(_ & _ & ->)| ->]; [discriminate|].
  by intros [= <-].
Qed.

Lemma add_emoji_checked_cases fromisoformat emoji_type timestamp_str now s :
  (last_minute s
   < replace_second_microsecond_0 (parse_timestamp fromisoformat timestamp_str now)
   /\ cutoff_time (last_minute s) (window_size s) = None
   /\ (current_minute_counts s <> ∅ \/ 0 < current_minute_total s)
   /\ add_emoji_checked fromisoformat emoji_type timestamp_str now s = None)
  \/ add_emoji_checked fromisoformat emoji_type timestamp_str now s
     = Some (add_emoji fromisoformat emoji_type timestamp_str now s).
Proof.
  unfold add_emoji_checked, add_emoji, add_emoji_locked, rotate.
  destruct (Z.ltb_spec (last_minute s)
              (replace_second_microsecond_0
                 (parse_timestamp fromisoformat timestamp_str now))) as [Hlt|Hge];
    [|by right].
  destruct (save_checked_cases s) as [(Hc & Hne & ->)| ->]; [|by right].
  left. done.
Qed.

Lemma add_emoji_checked_returns fromisoformat emoji_type timestamp_str now s :
  is_Some (cutoff_time (last_minute s) (window_size s)) ->
  add_emoji_checked fromisoformat emoji_type timestamp_str now s
  = Some (add_emoji fromisoformat emoji_type timestamp_str now s).
Proof.
  intros [c Hc].
  destruct (add_emoji_checked_cases fromisoformat emoji_type timestamp_str now s)
    as [(_ & Hn & _)|H]; [congruence | done].
Qed.

(** With a window longer than the time since 0001-01-01 the first rotation
    of a bucket that holds an event raises, whether the timestamp string
    parses or not; the call that opened the bucket returned, since it
    closed an empty one. *)
Lemma add_emoji_raises_on_unrepresentable_cutoff :
  run_checked IsoBasic.fromisoformat
    [AddEmoji "A" "2024-01-01T10:00:00" (clock "2024-01-01T10:00:01")]
    (__init__ 2000000000 (clock "2024-01-01T09:59:30")) = Some huge_window
  /\ current_minute_counts huge_window = {[ "A"%string := 1 ]}
  /\ cutoff_time (last_minute huge_window) (window_size huge_window) = None
  /\ add_emoji_checked IsoBasic.fromisoformat "A" "2024-01-01T10:01:00"
       (clock "2024-01-01T10:01:01") huge_window = None
  /\ add_emoji_checked IsoBasic.fromisoformat "A" "not a timestamp"
       (clock "2024-01-01T10:01:01") huge_window = None.
Proof. vm_compute. by repeat split. Qed.

End CheckedProofs.

Import Checked CheckedProofs.

(** C8, as stated, fails: when an earlier event has moved the open minute
    past the wall clock, the event with the unparseable timestamp is counted
    in the open bucket, that of 2099, and not in a bucket for the minute of
    the substituted wall-clock time. *)
Lemma fallback_counts_in_later_open_minute :
  let now := clock "2024-01-01T10:00:02" in
  let s' := add_emoji IsoBasic.fromisoformat "A" "not a timestamp" now
              after_future_event in
  IsoBasic.fromisoformat (replace_Z "not a timestamp") = None
  /\ last_minute s' = clock "2099-01-01T00:00:00"
  /\ last_minute s' <> replace_second_microsecond_0 now
  /\ current_minute_counts s' = {[ "A"%string := 2 ]}
  /\ current_minute_total s' = 2.
Proof. vm_compute. repeat split. discriminate. Qed.

(** C8, amended. For every category and timestamp string, [add_emoji]
    raises in one case only: the minute of the event is later than the open
    one, the open bucket holds something, and [last_minute] less
    [window_size] minutes is not a [datetime] (the [OverflowError] of line
    49 or 58).  In every other case, and so whenever that cutoff is a
    [datetime], it returns, and the state it leaves is the one [add_emoji]
    gives.  When the string does not parse, the call does what it does for
    the wall-clock time [now]; the event is counted once, in the open
    bucket: the bucket of the minute of [now], opened with category count 1
    and total 1, when that minute is later than the open one, and otherwise
    the bucket that was open already, whose category count and total go up
    by one while the marker and the series stay as they are. *)
Theorem unparseable_timestamp_counts_at_now
    (fromisoformat : string -> option datetime)
    (emoji_type timestamp_str : string) (now : Z) (s : EmojiAnalytics) :
  (add_emoji_checked fromisoformat emoji_type timestamp_str now s = None <->
     last_minute s
     < replace_second_microsecond_0 (parse_timestamp fromisoformat timestamp_str now)
     /\ cutoff_time (last_minute s) (window_size s) = None
     /\ (current_minute_counts s <> ∅ \/ 0 < current_minute_total s))
  /\ (forall s',
        add_emoji_checked fromisoformat emoji_type timestamp_str now s = Some s' ->
        s' = add_emoji fromisoformat emoji_type timestamp_str now s)
  /\ (is_Some (cutoff_time (last_minute s) (window_size s)) ->
      add_emoji_checked fromisoformat emoji_type timestamp_str now s
      = Some (add_emoji fromisoformat emoji_type timestamp_str now s))
  /\ (fromisoformat (replace_Z timestamp_str) = None ->
      add_emoji fromisoformat emoji_type timestamp_str now s
      = add_emoji_locked emoji_type now s
      /\ last_minute (add_emoji fromisoformat emoji_type timestamp_str now s)
         = Z.max (last_minute s) (replace_second_microsecond_0 now)
      /\ (last_minute s < replace_second_microsecond_0 now ->
          current_minute_counts (add_emoji fromisoformat emoji_type timestamp_str now s)
          = {[ emoji_type := 1 ]}
          /\ current_minute_total (add_emoji fromisoformat emoji_type timestamp_str now s)
             = 1)
      /\ (replace_second_microsecond_0 now <= last_minute s ->
          current_minute_counts (add_emoji fromisoformat emoji_type timestamp_str now s)
          = <[emoji_type := open_count emoji_type s + 1]> (current_minute_counts s)
          /\ current_minute_total (add_emoji fromisoformat emoji_type timestamp_str now s)
             = current_minute_total s + 1
          /\ emoji_counts (add_emoji fromisoformat emoji_type timestamp_str now s)
             = emoji_counts s
          /\ total_counts (add_emoji fromisoformat emoji_type timestamp_str now s)
             = total_counts s)).
Proof.
  split; [|split; [|split]].
  - split.
    + intros E.
      destruct (add_emoji_checked_cases fromisoformat emoji_type timestamp_str now s)
        as [(Hlt & Hc & Hne & _)|E']; [done | congruence].
    + intros (Hlt & Hc & Hne). unfold add_emoji_checked.
      apply Z.ltb_lt in Hlt. rewrite Hlt.
      by rewrite (save_checked_raises s Hc Hne).
  - intros s' E.
    destruct (add_emoji_checked_cases fromisoformat emoji_type timestamp_str now s)
      as [(_ & _ & _ & E')|E']; congruence.
  - apply add_emoji_checked_returns.
  - intros Hparse. unfold add_emoji, parse_timestamp. rewrite Hparse.
    split; [done|]. unfold add_emoji_locked, rotate.
    destruct (Z.ltb_spec (last_minute s) (replace_second_microsecond_0 now)).
    + split; [simpl; lia|]. split; [|lia]. intros _. split; [|done].
      simpl. rewrite lookup_empty. simpl. apply insert_empty.
    + split; [simpl; lia|]. split; [lia|]. intros _. repeat split.
Qed.

Lemma unparseable_timestamp_counts_at_now_witness :
  let now := clock "2024-01-01T10:01:07" in
  let s' := add_emoji IsoBasic.fromisoformat "A" "not a timestamp" now one_event in
  add_emoji_checked IsoBasic.fromisoformat "A" "not a timestamp" now one_event
  = Some s'
  /\ s' = add_emoji_locked "A" now one_event
  /\ last_minute s' = replace_second_microsecond_0 now
  /\ current_minute_counts s' = {[ "A"%string := 1 ]}
  /\ current_minute_total s' = 1.
Proof.
  destruct (unparseable_timestamp_counts_at_now IsoBasic.fromisoformat "A"
              "not a timestamp" (clock "2024-01-01T10:01:07") one_event)
    as (_ & _ & H0 & H).
  destruct H as (H1 & H2 & H3 & _); [vm_compute; reflexivity|].
  split; [apply H0; vm_compute; eauto|].
  split; [exact H1|]. split; [rewrite H2; vm_compute; reflexivity|].
  apply H3. vm_compute. reflexivity.
Defined.

(** ** [get_current_stats] is a read *)

(** C9. [get_current_stats] returns the state it was given: the series,
    the open bucket and the marker are as before the call.
    [get_total_data] and [get_emoji_data] do not: with a positive open total
    the total series gets the entry of the open bucket appended (before the
    eviction from its front), every category of the open bucket gets the
    same in its series, and under a window that is not negative the new
    entry is the last of the total series and the state after the call
    differs from the state before. *)
Theorem get_current_stats_reads_only (s : EmojiAnalytics) :
  (get_current_stats s).2 = s
  /\ (0 < current_minute_total s ->
      total_counts (get_total_data s).2
      = popleft_while (last_minute s - timedelta_minutes (window_size s))
          (total_counts s ++ [(last_minute s, current_minute_total s)]))
  /\ (forall emoji_type n,
        current_minute_counts s !! emoji_type = Some n ->
        emoji_counts (get_emoji_data s).2 !! emoji_type
        = Some (popleft_while (last_minute s - timedelta_minutes (window_size s))
                  (series emoji_type s ++ [(last_minute s, n)])))
  /\ (0 <= window_size s -> 0 < current_minute_total s ->
      total_counts (get_total_data s).2
      = popleft_while (last_minute s - timedelta_minutes (window_size s))
          (total_counts s)
        ++ [(last_minute s, current_minute_total s)])
  /\ (0 <= window_size s -> 0 < current_minute_total s ->
      (get_total_data s).2 <> s /\ (get_emoji_data s).2 <> s).
Proof.
  split; [done|]. split.
  { intros Hpos. simpl. apply Z.ltb_lt in Hpos. by rewrite Hpos. }
  split.
  { intros e n He. simpl. change (map_fold _ _ _) with
      (emoji_counts (_save_minute_data s)).
    by rewrite save_emoji_counts_lookup, He. }
  split.
  { intros Hw Hpos. simpl. apply Z.ltb_lt in Hpos. rewrite Hpos.
    apply popleft_while_snoc_keep. unfold timedelta_minutes, MINUTE. simpl. lia. }
  intros Hw Hpos.
  assert (Hne : total_counts (_save_minute_data s) <> total_counts s).
  { rewrite save_total_counts. apply Z.ltb_lt in Hpos as Hpos'. rewrite Hpos'.
    intros Heq.
    apply (f_equal (fun d => length (filter (fun e : entry => e.1 = last_minute s) d)))
      in Heq.
    rewrite popleft_while_count_key in Heq
      by (unfold timedelta_minutes, MINUTE; lia).
    rewrite filter_app, length_app in Heq.
    rewrite filter_cons_True in Heq by done. simpl in Heq. lia. }
  split; simpl; intros Heq; apply Hne; by rewrite Heq.
Qed.

Lemma get_current_stats_reads_only_witness :
  (get_current_stats one_event).2 = one_event
  /\ total_counts (get_total_data one_event).2
     = [(clock "2024-01-01T10:00:00", 1)]
  /\ emoji_counts (get_emoji_data one_event).2 !! "A"%string
     = Some [(clock "2024-01-01T10:00:00", 1)]
  /\ (get_total_data one_event).2 <> one_event
  /\ (get_emoji_data one_event).2 <> one_event.
Proof.
  destruct (get_current_stats_reads_only one_event) as (H1 & H2 & H3 & _ & H4).
  split; [exact H1|].
  split; [rewrite H2; vm_compute; reflexivity|].
  split; [rewrite (H3 "A"%string 1); vm_compute; reflexivity|].
  apply H4; vm_compute; [discriminate | reflexivity].
Defined.

(** ** Two concurrent callers *)

Module ConcurrentProofs.
Import Concurrent ConcurrentInv.

Lemma rotate_ge m s : m <= last_minute s -> rotate m s = s.
Proof.
  intros H. unfold rotate.
  destruct (Z.ltb_spec (last_minute s) m); [lia | done].
Qed.

Lemma rotate_lt m s e :
  last_minute s < m ->
  open_count e (rotate m s) = 0
  /\ current_minute_total (rotate m s) = 0
  /\ last_minute (rotate m s) = m.
Proof.
  intros H. unfold rotate.
  destruct (Z.ltb_spec (last_minute s) m); [|lia].
  unfold open_count. simpl. by rewrite lookup_empty.
Qed.

Section Invariant.

Variable fromisoformat : string -> option datetime.
Variable e : string.
Variable m : Z.
Variable N : Z.

Local Abbreviation inv := (inv fromisoformat e m N).
Local Abbreviation same_call := (same_call fromisoformat e m).
Local Abbreviation cinv := (cinv fromisoformat e m N).

Lemma inv_sym s l a b : inv s l a b -> inv s l b a.
Proof.
  intros [Ca Cb Pa Pb Hl Hm Hc Ht Hmin].
  constructor; try done.
  - by rewrite orb_comm.
  - by rewrite andb_comm.
  - lia.
  - lia.
  - destruct Hmin as [|(?&?&?&?)]; [by left | by right].
Qed.

(** A thread outside the critical section knows nothing about the shared
    counts, so its knowledge survives every write. *)
Lemma pc_ok_outside s s' b :
  in_cs (at_pc b) = false -> pc_ok e m s b -> pc_ok e m s' b.
Proof. unfold pc_ok. by destruct (at_pc b). Qed.

Local Ltac close_inv Hmin :=
  constructor; simpl; try done;
  try (by eapply pc_ok_outside);
  try (unfold rc, rt, open_count in *; simpl in *;
       rewrite ?lookup_insert_eq; simpl; lia);
  try (destruct Hmin as [|(_ & _ & ? & _)]; [by left | done]).

(** Every step of one thread keeps the invariant, whatever the other
    thread is at. *)
Lemma step_thread_inv a b s l a' s' l' :
  step_thread fromisoformat a s l = Some (a', s', l') ->
  inv s l a b -> inv s' l' a' b.
Proof.
  intros Hstep [Ca Cb Pa Pb Hl Hm Hc Ht Hmin].
  destruct a as [pend p]. unfold step_thread in Hstep.
  unfold pc_ok in Pa. simpl in *.
  destruct pend as [|[[e' ts] now] rest]; [discriminate|].
  pose proof Ca as Ca'.
  apply Forall_cons in Ca' as [[He' Hts] Ca']. simpl in He', Hts. subst e'.
  destruct p; simpl in *.
  - (* Parse *)
    injection Hstep as <- <- <-. close_inv Hmin.
  - (* Acquire *)
    destruct l; [discriminate|]. injection Hstep as <- <- <-.
    symmetry in Hl. close_inv Hmin.
  - (* Rotate *)
    injection Hstep as <- <- <-. destruct Pa as [-> _].
    destruct (Z.lt_ge_cases (last_minute s) m) as [Hlt|Hge].
    + destruct Hmin as [|(Hc0 & Ht0 & _ & Hb)]; [lia|].
      destruct (rotate_lt m s e Hlt) as (Hc1 & Ht1 & Hm1).
      constructor; simpl; try done.
      * by eapply pc_ok_outside.
      * unfold rc in *. simpl in *. lia.
      * unfold rt in *. simpl in *. lia.
      * left. lia.
    + rewrite rotate_ge by lia.
      constructor; simpl; try done. by left.
  - (* LoadCount *)
    injection Hstep as <- <- <-. close_inv Hmin.
  - (* StoreCount *)
    injection Hstep as <- <- <-. destruct Pa as [-> _]. close_inv Hmin.
  - (* LoadTotal *)
    injection Hstep as <- <- <-. close_inv Hmin.
  - (* StoreTotal *)
    injection Hstep as <- <- <-. destruct Pa as [-> _]. close_inv Hmin.
  - (* Release *)
    injection Hstep as <- <- <-. close_inv Hmin.
Qed.

Lemma pc_ok_done s th : pc_ok e m s th -> pending th = [] -> at_pc th = Parse.
Proof.
  unfold pc_ok. intros H F. rewrite F in H.
  destruct (at_pc th); try done; intuition congruence.
Qed.

Lemma step_cinv t c c' :
  step fromisoformat t c = Some c' -> cinv c -> cinv c'.
Proof.
  unfold step, ConcurrentInv.cinv. intros Hstep Hinv. destruct t.
  - destruct (step_thread fromisoformat (thread1 c) (shared c) (locked c))
      as [[[th s] l]|] eqn:E; [|discriminate].
    injection Hstep as <-. simpl. by eapply step_thread_inv.
  - destruct (step_thread fromisoformat (thread2 c) (shared c) (locked c))
      as [[[th s] l]|] eqn:E; [|discriminate].
    injection Hstep as <-. simpl.
    apply inv_sym. eapply step_thread_inv; [exact E|]. by apply inv_sym.
Qed.

Lemma run_sched_cinv sched c c' :
  run_sched fromisoformat sched c = Some c' -> cinv c -> cinv c'.
Proof.
  revert c. induction sched as [|t sched IH]; simpl; intros c Hrun Hinv.
  - by injection Hrun as <-.
  - destruct (step fromisoformat t c) as [c1|] eqn:E; [|discriminate].
    simpl in Hrun. eapply IH; [exact Hrun|]. by eapply step_cinv.
Qed.

Lemma cinv_start w now0 calls1 calls2 :
  Forall same_call calls1 -> Forall same_call calls2 ->
  N = Z.of_nat (length calls1) + Z.of_nat (length calls2) ->
  cinv (start (__init__ w now0) calls1 calls2).
Proof.
  intros H1 H2 HN. constructor; simpl; try done.
  - unfold rc, open_count. simpl. rewrite lookup_empty. simpl. lia.
  - unfold rt. simpl. lia.
  - right. unfold open_count. simpl. by rewrite lookup_empty.
Qed.

(** Once both threads are done, every increment has arrived. *)
Lemma finished_counts c :
  cinv c -> finished c ->
  open_count e (shared c) = N /\ current_minute_total (shared c) = N.
Proof.
  intros [_ _ Pa Pb _ _ Hc Ht _] [F1 F2].
  apply pc_ok_done in Pa; [|done]. apply pc_ok_done in Pb; [|done].
  unfold rc, rt in *. rewrite F1, F2, Pa, Pb in *. simpl in *. lia.
Qed.

(** No deadlock: while a call is pending some thread can take a step. *)
Lemma progress c :
  cinv c -> ~ finished c -> exists t c', step fromisoformat t c = Some c'.
Proof.
  intros [_ _ Pa Pb Hl Hm _ _ _] Hnf.
  destruct c as [s l [p1 pc1] [p2 pc2]]. unfold finished, step, step_thread in *.
  unfold pc_ok in *. simpl in *.
  destruct pc1; simpl in *;
    try (exists T1; destruct p1 as [|[[??]?] ?]; simpl;
         [by (destruct Pa) | eexists; reflexivity]).
  - (* thread 1 at Parse *)
    destruct p1 as [|[[e1 ts1] n1] r1]; [|exists T1; eexists; reflexivity].
    destruct pc2; simpl in *;
      try (exists T2; destruct p2 as [|[[??]?] ?]; simpl;
           [by (destruct Pb) | eexists; reflexivity]).
    + destruct p2 as [|[[e2 ts2] n2] r2]; [by destruct Hnf|].
      exists T2. eexists. reflexivity.
    + subst l. exists T2. destruct p2 as [|[[??]?] ?]; simpl;
        [by destruct Pb | eexists; reflexivity].
  - (* thread 1 at Acquire *)
    destruct l.
    + destruct pc2; simpl in *; try discriminate;
        exists T2; destruct p2 as [|[[??]?] ?]; simpl;
        solve [by (destruct Pb) | eexists; reflexivity].
    + exists T1. destruct p1 as [|[[??]?] ?]; simpl;
        [by destruct Pa | eexists; reflexivity].
Qed.

Lemma step_thread_steps_left a s l a' s' l' :
  step_thread fromisoformat a s l = Some (a', s', l') ->
  S (steps_left a') = steps_left a.
Proof.
  destruct a as [pend p]. unfold step_thread, steps_left. simpl.
  destruct pend as [|[[e' ts] now] rest]; [discriminate|].
  destruct p; simpl; try (intros [= <- <- <-]; simpl; lia).
  - destruct l; [discriminate|]. intros [= <- <- <-]. simpl. lia.
  - intros [= <- <- <-]. simpl. destruct rest; simpl; lia.
Qed.

Lemma step_steps_left t c c' :
  step fromisoformat t c = Some c' ->
  S (steps_left (thread1 c') + steps_left (thread2 c'))
  = (steps_left (thread1 c) + steps_left (thread2 c))%nat.
Proof.
  unfold step. intros Hstep. destruct t.
  - destruct (step_thread fromisoformat (thread1 c) (shared c) (locked c))
      as [[[th s] l]|] eqn:E; [|discriminate].
    injection Hstep as <-. simpl. apply step_thread_steps_left in E. lia.
  - destruct (step_thread fromisoformat (thread2 c) (shared c) (locked c))
      as [[[th s] l]|] eqn:E; [|discriminate].
    injection Hstep as <-. simpl. apply step_thread_steps_left in E. lia.
Qed.

(** Every execution can be run to its end. *)
Lemma completion c :
  cinv c ->
  exists sched c', run_sched fromisoformat sched c = Some c' /\ finished c'.
Proof.
  remember (steps_left (thread1 c) + steps_left (thread2 c))%nat as n eqn:Hn.
  revert c Hn. induction n as [|n IH]; intros c Hn Hinv.
  - exists [], c. split; [done|].
    unfold finished, steps_left in *.
    destruct (pending (thread1 c)), (pending (thread2 c)); try done;
      destruct (at_pc (thread1 c)), (at_pc (thread2 c)); simpl in Hn; lia.
  - destruct (progress c Hinv) as (t & c1 & Hstep).
    { intros [F1 F2]. unfold steps_left in Hn. rewrite F1, F2 in Hn. lia. }
    pose proof (step_steps_left t c c1 Hstep) as Hdec.
    destruct (IH c1) as (sched & c' & Hrun & Hfin);
      [lia | by eapply step_cinv |].
    exists (t :: sched), c'. split; [|done]. simpl. by rewrite Hstep.
Qed.

End Invariant.
End ConcurrentProofs.

Import Concurrent ConcurrentInv ConcurrentProofs.

(** The lock is what the count rests on: were the acquire never to wait,
    two callers with one call each could both load the count 0 and both
    store 1. *)
Lemma without_lock_an_update_is_lost :
  let one := [("A"%string, "2024-01-01T10:00:00"%string,
               clock "2024-01-01T10:00:01")] in
  exists c,
    run_sched_nolock IsoBasic.fromisoformat
      [T1; T2; T1; T2; T1; T2; T1; T2; T1; T2; T1; T2; T1; T2; T1; T2]
      (start analytics one one) = Some c
    /\ finished c
    /\ open_count "A" (shared c) = 1
    /\ current_minute_total (shared c) = 1.
Proof. eexists. vm_compute. repeat split. Qed.

(** C10. Two callers make 500 [add_emoji] calls each on a new aggregator,
    all for one category and with timestamps of one minute.  The calls
    take the instance lock around the rotation and around the loads and
    stores of the two counters.  Then every execution, however the steps of
    the two threads interleave, can run to its end, and at its end the
    category count and the total of the open bucket are exactly 1000. *)
Theorem two_callers_no_lost_update
    (fromisoformat : string -> option datetime) (w now0 : Z)
    (e : string) (m : Z) (calls1 calls2 : list call)
    (sched : list tid) (c : config) :
  Forall (same_call fromisoformat e m) calls1 ->
  Forall (same_call fromisoformat e m) calls2 ->
  length calls1 = 500%nat -> length calls2 = 500%nat ->
  run_sched fromisoformat sched (start (__init__ w now0) calls1 calls2) = Some c ->
  (exists sched' c', run_sched fromisoformat sched' c = Some c' /\ finished c')
  /\ (finished c ->
      open_count e (shared c) = 1000 /\ current_minute_total (shared c) = 1000).
Proof.
  intros H1 H2 L1 L2 Hrun.
  assert (Hinv : cinv fromisoformat e m 1000 c).
  { eapply run_sched_cinv; [exact Hrun|].
    apply cinv_start; [done|done|]. rewrite L1, L2. reflexivity. }
  split; [by apply (completion fromisoformat e m 1000)
         | by apply (finished_counts fromisoformat e m 1000)].
Qed.

Lemma two_callers_no_lost_update_witness :
  run_sched IsoBasic.fromisoformat interleaved (start analytics burst burst)
  = Some after_bursts
  /\ open_count "A" (shared after_bursts) = 1000
  /\ current_minute_total (shared after_bursts) = 1000.
Proof.
  assert (Hrun : run_sched IsoBasic.fromisoformat interleaved
                   (start analytics burst burst) = Some after_bursts)
    by (vm_compute; reflexivity).
  split; [exact Hrun|].
  apply (two_callers_no_lost_update IsoBasic.fromisoformat 3
           (clock "2024-01-01T09:59:30") "A" (clock "2024-01-01T10:00:00")
           burst burst interleaved after_bursts).
  - apply Forall_replicate. split; vm_compute; reflexivity.
  - apply Forall_replicate. split; vm_compute; reflexivity.
  - apply length_replicate.
  - apply length_replicate.
  - exact Hrun.
  - split; reflexivity.
Defined.

(** * Further properties *)

(** ** Sums over a dictionary *)

Lemma gsum_empty {A} (f : A -> Z) : gsum f ∅ = 0.
Proof. unfold gsum. by rewrite map_fold_empty. Qed.

Lemma gsum_insert_fresh {A} (f : A -> Z) (m : gmap string A) k x :
  m !! k = None -> gsum f (<[k := x]> m) = f x + gsum f m.
Proof.
  intros Hk. unfold gsum. rewrite map_fold_insert_L; [done| |done].
  intros. lia.
Qed.

Lemma gsum_delete {A} (f : A -> Z) (m : gmap string A) k x :
  m !! k = Some x -> gsum f m = f x + gsum f (delete k m).
Proof.
  intros Hk. unfold gsum. rewrite (map_fold_delete_L _ _ k x m); [done| |done].
  intros. lia.
Qed.

(** Writing a key adds the new value and takes out the old one. *)
Lemma gsum_insert {A} (f : A -> Z) (m : gmap string A) k x :
  gsum f (<[k := x]> m)
  = f x + gsum f m - match m !! k with Some y => f y | None => 0 end.
Proof.
  destruct (m !! k) as [y|] eqn:Hk.
  - rewrite <- insert_delete_eq.
    rewrite gsum_insert_fresh by apply lookup_delete_eq.
    rewrite (gsum_delete f m k y Hk). lia.
  - rewrite gsum_insert_fresh by done. lia.
Qed.

Lemma gsum_nonneg {A} (f : A -> Z) (m : gmap string A) :
  (forall k x, m !! k = Some x -> 0 <= f x) -> 0 <= gsum f m.
Proof.
  unfold gsum.
  apply (map_fold_weak_ind
    (fun r m => (forall k x, m !! k = Some x -> 0 <= f x) -> 0 <= r)).
  - intros _. lia.
  - intros k x m' r Hk IH H.
    assert (0 <= f x) by (apply (H k); apply lookup_insert_eq).
    assert (0 <= r); [|lia].
    apply IH. intros j y Hj. apply (H j).
    rewrite lookup_insert_ne; [done|]. intros ->. congruence.
Qed.

(** ** The open bucket *)

Lemma bucket_ok_init w now : bucket_ok (__init__ w now).
Proof.
  split; [apply gsum_empty|]. simpl. intros k n Hk. by rewrite lookup_empty in Hk.
Qed.

Lemma bucket_ok_rotate m s : bucket_ok s -> bucket_ok (rotate m s).
Proof.
  intros H. unfold rotate. destruct (last_minute s <? m); [|done].
  split; [apply gsum_empty|]. simpl. intros k n Hk. by rewrite lookup_empty in Hk.
Qed.

Lemma bucket_ok_increment emoji_type s :
  bucket_ok s -> bucket_ok (increment emoji_type s).
Proof.
  intros [Hsum Hpos]. split.
  - unfold bucket_sum in *. simpl. rewrite gsum_insert, <- Hsum.
    destruct (current_minute_counts s !! emoji_type); simpl; unfold id; lia.
  - simpl. intros k n. destruct (decide (emoji_type = k)) as [->|Hne].
    + rewrite lookup_insert_eq. intros [= <-].
      destruct (current_minute_counts s !! k) as [n0|] eqn:E; simpl; [|lia].
      apply Hpos in E. lia.
    + rewrite lookup_insert_ne by done. apply Hpos.
Qed.

Lemma bucket_ok_exec fromisoformat o s :
  bucket_ok s -> bucket_ok (exec fromisoformat o s).
Proof.
  intros H. destruct o; simpl; try done.
  by apply bucket_ok_increment, bucket_ok_rotate.
Qed.

Lemma bucket_ok_run fromisoformat ops s :
  bucket_ok s -> bucket_ok (run fromisoformat ops s).
Proof.
  revert s. induction ops as [|o ops IH]; intros s H; simpl; [done|].
  by apply IH, bucket_ok_exec.
Qed.

Lemma bucket_ok_total_nonneg s : bucket_ok s -> 0 <= current_minute_total s.
Proof.
  intros [<- Hpos]. apply gsum_nonneg. intros k n Hk.
  apply Hpos in Hk. unfold id. lia.
Qed.

(** X6. After any sequence of operations on a new aggregator, the total of
    the open bucket is the sum of its per-category counts, and every
    category in the bucket has a count of at least 1. *)
Theorem bucket_total_is_sum
    (fromisoformat : string -> option datetime) (w now0 : Z) (ops : list op) :
  bucket_sum (run fromisoformat ops (__init__ w now0))
  = current_minute_total (run fromisoformat ops (__init__ w now0))
  /\ forall emoji_type n,
       current_minute_counts (run fromisoformat ops (__init__ w now0))
         !! emoji_type = Some n ->
       1 <= n.
Proof. apply bucket_ok_run, bucket_ok_init. Qed.

(** ** Conservation of the total *)

Lemma total_save s :
  0 <= current_minute_total s ->
  sum_counts (total_counts (_save_minute_data s)) + evicted_total_by_save s
  = sum_counts (total_counts s) + current_minute_total s.
Proof.
  intros H. rewrite save_total_counts. unfold evicted_total_by_save.
  destruct (Z.ltb_spec 0 (current_minute_total s)); [|lia].
  rewrite sum_counts_popleft_while, sum_counts_app. simpl. lia.
Qed.

Lemma total_conservation_exec fromisoformat o s :
  no_series_query o = true -> bucket_ok s ->
  total_plus_open (exec fromisoformat o s) + evicted_total_by fromisoformat o s
  = total_plus_open s + (if is_add_any o then 1 else 0).
Proof.
  intros Ho Hb. pose proof (bucket_ok_total_nonneg s Hb) as Hnn.
  destruct o as [e ts now| | |]; simpl in *; try discriminate; [|lia].
  unfold add_emoji, add_emoji_locked, rotate, total_plus_open.
  destruct (last_minute s <? _); simpl; [|lia].
  pose proof (total_save s Hnn) as H. rewrite save_total_counts in H.
  simpl in H. lia.
Qed.

Lemma add_calls_cons o ops :
  add_calls (o :: ops) = (if is_add_any o then 1 else 0) + add_calls ops.
Proof.
  unfold add_calls. destruct (is_add_any o) eqn:E.
  - rewrite filter_cons_True by done. simpl length. lia.
  - rewrite filter_cons_False by (rewrite E; discriminate). lia.
Qed.

Lemma total_conservation_run fromisoformat ops s :
  Forall (fun o => no_series_query o = true) ops -> bucket_ok s ->
  total_plus_open (run fromisoformat ops s) + evicted_total fromisoformat ops s
  = total_plus_open s + add_calls ops.
Proof.
  intros H. revert s. induction H as [|o ops Ho _ IH]; intros s Hb.
  - unfold add_calls. simpl. lia.
  - rewrite add_calls_cons. simpl.
    pose proof (IH _ (bucket_ok_exec fromisoformat o s Hb)) as IH'.
    pose proof (total_conservation_exec fromisoformat o s Ho Hb). lia.
Qed.

Lemma evicted_total_by_save_nonneg s :
  Forall (fun e : entry => 0 < e.2) (total_counts s) ->
  0 <= evicted_total_by_save s.
Proof.
  intros H. unfold evicted_total_by_save.
  destruct (Z.ltb_spec 0 (current_minute_total s)); [|lia].
  apply sum_counts_nonneg.
  assert (Hall : Forall (fun e : entry => 0 < e.2)
                   (total_counts s ++ [(last_minute s, current_minute_total s)])).
  { apply Forall_app. split; [done|]. by repeat constructor. }
  rewrite <- (popped_popleft_while
    (last_minute s - timedelta_minutes (window_size s))) in Hall.
  by apply Forall_app in Hall as [Hall _].
Qed.

Lemma total_pos_exec fromisoformat o s :
  Forall (fun e : entry => 0 < e.2) (total_counts s) ->
  Forall (fun e : entry => 0 < e.2) (total_counts (exec fromisoformat o s)).
Proof.
  intros H.
  assert (Hs : Forall (fun e : entry => 0 < e.2)
                 (total_counts (_save_minute_data s))).
  { rewrite save_total_counts.
    destruct (Z.ltb_spec 0 (current_minute_total s)); [|done].
    apply popleft_while_Forall, Forall_app. split; [done|].
    by repeat constructor. }
  destruct o; simpl; try done.
  unfold add_emoji, add_emoji_locked, rotate.
  by destruct (last_minute s <? _).
Qed.

Lemma evicted_total_nonneg fromisoformat ops s :
  Forall (fun e : entry => 0 < e.2) (total_counts s) ->
  0 <= evicted_total fromisoformat ops s.
Proof.
  revert s. induction ops as [|o ops IH]; intros s H; simpl; [lia|].
  pose proof (IH _ (total_pos_exec fromisoformat o s H)).
  pose proof (evicted_total_by_save_nonneg s H).
  assert (0 <= evicted_total_by fromisoformat o s); [|lia].
  destruct o; simpl; try lia. by destruct (last_minute s <? _).
Qed.

(** X7. Along any sequence of [add_emoji] and [get_current_stats] calls on
    a new aggregator, the [total_emojis] figure that [get_current_stats]
    reports (retained totals plus the open total) is the number of
    [add_emoji] calls made less the totals evicted so far, and what was
    evicted is not negative: the figure never exceeds the number of events
    received. *)
Theorem total_emojis_counts_calls
    (fromisoformat : string -> option datetime) (w now0 : Z) (ops : list op) :
  Forall (fun o => no_series_query o = true) ops ->
  total_emojis (get_current_stats (run fromisoformat ops (__init__ w now0))).1
  = add_calls ops - evicted_total fromisoformat ops (__init__ w now0)
  /\ 0 <= evicted_total fromisoformat ops (__init__ w now0).
Proof.
  intros H.
  pose proof (total_conservation_run fromisoformat ops (__init__ w now0) H
                (bucket_ok_init w now0)) as Hc.
  assert (He : 0 <= evicted_total fromisoformat ops (__init__ w now0))
    by (apply evicted_total_nonneg; constructor).
  split; [|exact He].
  change (total_emojis (get_current_stats ?s).1) with (total_plus_open s).
  change (total_plus_open (__init__ w now0)) with 0 in Hc. lia.
Qed.

Lemma total_emojis_counts_calls_witness :
  total_emojis
    (get_current_stats
       (run IsoBasic.fromisoformat every_other_minute
          (__init__ 3 (clock "2024-01-01T09:59:30")))).1
  = add_calls every_other_minute
    - evicted_total IsoBasic.fromisoformat every_other_minute
        (__init__ 3 (clock "2024-01-01T09:59:30"))
  /\ 0 <= evicted_total IsoBasic.fromisoformat every_other_minute
            (__init__ 3 (clock "2024-01-01T09:59:30")).
Proof.
  apply (total_emojis_counts_calls IsoBasic.fromisoformat 3
           (clock "2024-01-01T09:59:30") every_other_minute).
  repeat constructor.
Defined.

(** ** The eviction loop on a series in order *)

Lemma filter_Forall_id {A} (P : A -> Prop) `{!forall x, Decision (P x)} (l : list A) :
  Forall P l -> filter P l = l.
Proof.
  induction 1 as [|x l Hx _ IH]; [done|].
  rewrite filter_cons_True by done. by rewrite IH.
Qed.

(** On a series in order, popping stale entries from the front leaves
    exactly the entries that are not older than the cutoff. *)
Lemma popleft_while_filter cutoff d :
  ascending d ->
  popleft_while cutoff d = filter (fun e : entry => cutoff <= e.1) d.
Proof.
  unfold ascending. induction d as [|e d IH]; intros H; [done|].
  apply StronglySorted_cons in H as [Hhd Htl]. simpl.
  destruct (Z.ltb_spec e.1 cutoff) as [Hlt|Hge].
  - rewrite filter_cons_False by lia. by apply IH.
  - rewrite filter_cons_True by done. f_equal.
    symmetry. apply filter_Forall_id.
    eapply Forall_impl; [exact Hhd|]. simpl. intros x Hx. lia.
Qed.

Lemma ascending_snoc L d n :
  ascending d -> Forall (fun e : entry => e.1 <= L) d ->
  ascending (d ++ [(L, n)]).
Proof.
  intros Hasc Hle. apply StronglySorted_app_2; [|done|repeat constructor].
  intros x1 x2 Hx1 Hx2. apply list_elem_of_singleton in Hx2 as ->. simpl.
  by apply (proj1 (Forall_forall _ _) Hle).
Qed.

(** X8. In every state reached from a new aggregator, closing the open
    minute evicts exactly the stale entries: the total series and the series
    of every category of the open bucket become the old series with the new
    entry appended, restricted (in order) to the entries whose key is not
    older than [last_minute - window_size] minutes. *)
Theorem save_keeps_exactly_the_window
    (fromisoformat : string -> option datetime) (w now0 : Z) (ops : list op)
    (emoji_type : string) (n : Z) :
  0 < current_minute_total (run fromisoformat ops (__init__ w now0)) ->
  current_minute_counts (run fromisoformat ops (__init__ w now0)) !! emoji_type
  = Some n ->
  total_counts (_save_minute_data (run fromisoformat ops (__init__ w now0)))
  = filter
      (fun e : entry =>
         last_minute (run fromisoformat ops (__init__ w now0))
         - timedelta_minutes w <= e.1)
      (total_counts (run fromisoformat ops (__init__ w now0))
       ++ [(last_minute (run fromisoformat ops (__init__ w now0)),
            current_minute_total (run fromisoformat ops (__init__ w now0)))])
  /\ emoji_counts (_save_minute_data (run fromisoformat ops (__init__ w now0)))
       !! emoji_type
     = Some (filter
               (fun e : entry =>
                  last_minute (run fromisoformat ops (__init__ w now0))
                  - timedelta_minutes w <= e.1)
               (series emoji_type (run fromisoformat ops (__init__ w now0))
                ++ [(last_minute (run fromisoformat ops (__init__ w now0)), n)])).
Proof.
  pose proof (state_ok_run fromisoformat ops _ (state_ok_init w now0)) as [Ht He].
  pose proof (window_size_run fromisoformat ops (__init__ w now0)) as Hw.
  simpl in Hw.
  set (s := run fromisoformat ops (__init__ w now0)) in *.
  intros Hpos Hk. split.
  - rewrite save_total_counts. apply Z.ltb_lt in Hpos. rewrite Hpos, Hw.
    apply popleft_while_filter, ascending_snoc; apply Ht.
  - rewrite save_emoji_counts_lookup, Hk, Hw. f_equal.
    apply popleft_while_filter. unfold series.
    destruct (emoji_counts s !! emoji_type) as [d|] eqn:Hd; simpl.
    + destruct (He _ _ Hd) as (Ha & Hl & _). by apply ascending_snoc.
    + repeat constructor.
Qed.

Lemma save_keeps_exactly_the_window_witness :
  total_counts
    (_save_minute_data
       (run IsoBasic.fromisoformat every_other_minute
          (__init__ 3 (clock "2024-01-01T09:59:30"))))
  = [(clock "2024-01-01T10:04:00", 1); (clock "2024-01-01T10:06:00", 1)].
Proof.
  destruct (save_keeps_exactly_the_window IsoBasic.fromisoformat 3
              (clock "2024-01-01T09:59:30") every_other_minute "A" 1) as [H _];
    [vm_compute; reflexivity | vm_compute; reflexivity |].
  rewrite H. vm_compute. reflexivity.
Defined.

(** ** The open-minute marker *)

Lemma replace_second_microsecond_0_aligned t :
  (MINUTE | replace_second_microsecond_0 t).
Proof. unfold replace_second_microsecond_0. apply Z.divide_factor_l. Qed.

Lemma last_minute_exec fromisoformat o s :
  last_minute s <= last_minute (exec fromisoformat o s).
Proof.
  destruct o; simpl; try lia.
  unfold add_emoji, add_emoji_locked, rotate.
  destruct (Z.ltb_spec (last_minute s)
              (replace_second_microsecond_0
                 (parse_timestamp fromisoformat timestamp_str now)));
    simpl; lia.
Qed.

Lemma last_minute_run fromisoformat ops s :
  last_minute s <= last_minute (run fromisoformat ops s).
Proof.
  revert s. induction ops as [|o ops IH]; intros s; simpl; [lia|].
  pose proof (last_minute_exec fromisoformat o s).
  pose proof (IH (exec fromisoformat o s)). lia.
Qed.

Lemma aligned_init w now : aligned (__init__ w now).
Proof.
  split; [apply replace_second_microsecond_0_aligned|].
  split; simpl; [constructor|].
  intros k d Hk. by rewrite lookup_empty in Hk.
Qed.

Lemma aligned_save s : aligned s -> aligned (_save_minute_data s).
Proof.
  intros (HL & Ht & He). split; [done|]. split.
  - rewrite save_total_counts. destruct (0 <? current_minute_total s); [|done].
    apply popleft_while_Forall, Forall_app. split; [done|].
    by repeat constructor.
  - intros k d. rewrite save_emoji_counts_lookup.
    destruct (current_minute_counts s !! k) as [n|]; [|by apply He].
    intros [= <-]. apply popleft_while_Forall, Forall_app.
    split; [|by repeat constructor]. unfold series.
    destruct (emoji_counts s !! k) as [d0|] eqn:Hd; simpl;
      [by eapply He | constructor].
Qed.

Lemma aligned_exec fromisoformat o s :
  aligned s -> aligned (exec fromisoformat o s).
Proof.
  intros H. destruct o; simpl; try (by apply aligned_save); [|done].
  unfold add_emoji, add_emoji_locked, rotate.
  destruct (last_minute s <? _); [|exact H].
  destruct (aligned_save s H) as (_ & Ht & He).
  split; [apply replace_second_microsecond_0_aligned | by split].
Qed.

Lemma aligned_run fromisoformat ops s :
  aligned s -> aligned (run fromisoformat ops s).
Proof.
  revert s. induction ops as [|o ops IH]; intros s H; simpl; [done|].
  by apply IH, aligned_exec.
Qed.

(** X9. The open-minute marker never moves back, whatever the timestamps
    and the wall clock: after any further operations it is at or after the
    value it had, from any state.  From a new aggregator the marker and the
    key of every retained entry are whole minutes. *)
Theorem marker_never_moves_back
    (fromisoformat : string -> option datetime) (ops : list op) :
  (forall s, last_minute s <= last_minute (run fromisoformat ops s))
  /\ forall w now0,
       (MINUTE | last_minute (run fromisoformat ops (__init__ w now0)))
       /\ Forall (fun e : entry => (MINUTE | e.1))
            (total_counts (run fromisoformat ops (__init__ w now0)))
       /\ forall emoji_type d,
            emoji_counts (run fromisoformat ops (__init__ w now0)) !! emoji_type
            = Some d ->
            Forall (fun e : entry => (MINUTE | e.1)) d.
Proof.
  split; [intros s; apply last_minute_run|].
  intros w now0. apply aligned_run, aligned_init.
Qed.

(** ** Bounded series *)

(** In a series of whole-minute keys in strictly ascending order the
    latest key is at least one minute per entry after the first. *)
Lemma strict_aligned_span e d k :
  StronglySorted (fun a b : entry => a.1 < b.1) (e :: d) ->
  Forall (fun x : entry => (MINUTE | x.1)) (e :: d) ->
  latest (e :: d) = Some k ->
  MINUTE * Z.of_nat (length d) <= k - e.1.
Proof.
  revert e. induction d as [|e2 d IH]; intros e Hs Ha Hk.
  - unfold latest in Hk. simpl in Hk. injection Hk as <-. simpl. lia.
  - apply StronglySorted_cons in Hs as [Hhd Hs].
    apply Forall_cons in Ha as [[q Hq] Ha].
    pose proof Ha as Ha2. apply Forall_cons in Ha2 as [[q2 Hq2] _].
    apply Forall_cons in Hhd as [Hlt _].
    assert (Hk2 : latest (e2 :: d) = Some k).
    { unfold latest in *. by rewrite last_cons_cons in Hk. }
    pose proof (IH e2 Hs Ha Hk2) as IH'.
    unfold MINUTE in *. simpl length. lia.
Qed.

Lemma strict_series_length w d :
  0 <= w ->
  StronglySorted (fun a b : entry => a.1 < b.1) d ->
  Forall (fun x : entry => (MINUTE | x.1)) d ->
  window_bound w d ->
  Z.of_nat (length d) <= w + 1.
Proof.
  intros Hw Hs Ha Hb. destruct d as [|e d]; [simpl; lia|].
  destruct (latest (e :: d)) as [k|] eqn:Hk.
  - pose proof (strict_aligned_span e d k Hs Ha Hk) as Hspan.
    specialize (Hb k Hk). apply Forall_inv in Hb.
    unfold timedelta_minutes, MINUTE in *. simpl length. lia.
  - unfold latest in Hk. destruct (last (e :: d)) eqn:E; [discriminate|].
    by apply last_None in E.
Qed.

(** X10. With a window that is not negative, and as long as no
    [get_emoji_data] or [get_total_data] call was made, the total series and
    every per-category series hold at most [window_size + 1] entries: the
    memory of the aggregator is bounded by the window, whatever the number
    of events. *)
Theorem series_hold_at_most_window_plus_one
    (fromisoformat : string -> option datetime) (w now0 : Z) (ops : list op) :
  0 <= w ->
  Forall (fun o => no_series_query o = true) ops ->
  Z.of_nat (length (total_counts (run fromisoformat ops (__init__ w now0))))
  <= w + 1
  /\ forall emoji_type d,
       emoji_counts (run fromisoformat ops (__init__ w now0)) !! emoji_type
       = Some d ->
       Z.of_nat (length d) <= w + 1.
Proof.
  intros Hw Hops.
  pose proof (strict_state_run fromisoformat ops _ Hops (strict_state_init w now0))
    as [Hst Hse].
  pose proof (aligned_run fromisoformat ops _ (aligned_init w now0))
    as (_ & Hat & Hae).
  pose proof (state_ok_run fromisoformat ops _ (state_ok_init w now0)) as [Hbt Hbe].
  rewrite window_size_run in Hbt, Hbe. simpl in Hbt, Hbe.
  split.
  - apply strict_series_length; [done|apply Hst|done|apply Hbt].
  - intros k d Hk. apply strict_series_length; [done| | |].
    + by destruct (Hse k d Hk).
    + by eapply Hae.
    + by eapply Hbe.
Qed.

Lemma series_hold_at_most_window_plus_one_witness :
  Z.of_nat
    (length (total_counts
               (run IsoBasic.fromisoformat every_other_minute
                  (__init__ 3 (clock "2024-01-01T09:59:30")))))
  <= 3 + 1.
Proof.
  apply (series_hold_at_most_window_plus_one IsoBasic.fromisoformat 3
           (clock "2024-01-01T09:59:30") every_other_minute).
  - lia.
  - repeat constructor.
Defined.

(** ** Repeated polls *)

Lemma popleft_while_head cutoff d x r :
  popleft_while cutoff d = x :: r -> cutoff <= x.1.
Proof.
  induction d as [|e d IH]; simpl; [discriminate|].
  destruct (Z.ltb_spec e.1 cutoff); [exact IH|]. by intros [= <- _].
Qed.

(** What the loop has left is left alone by a second pass, also with
    entries inside the window appended. *)
Lemma popleft_while_stable cutoff d l :
  Forall (fun e : entry => cutoff <= e.1) l ->
  popleft_while cutoff (popleft_while cutoff d ++ l)
  = popleft_while cutoff d ++ l.
Proof.
  intros Hl. destruct (popleft_while cutoff d) as [|x r] eqn:E; simpl.
  - destruct Hl as [|y l Hy _]; simpl; [done|].
    destruct (Z.ltb_spec y.1 cutoff); [lia | done].
  - apply popleft_while_head in E.
    destruct (Z.ltb_spec x.1 cutoff); [lia | done].
Qed.

Lemma polled_from_first s :
  0 <= window_size s -> 0 < current_minute_total s ->
  polled_from s 1 (_save_minute_data s).
Proof.
  intros Hw Hpos. repeat split.
  - rewrite save_total_counts. apply Z.ltb_lt in Hpos. rewrite Hpos.
    apply popleft_while_snoc_keep. unfold timedelta_minutes, MINUTE. simpl. lia.
  - intros k n Hk. rewrite save_emoji_counts_lookup, Hk. f_equal.
    apply popleft_while_snoc_keep. unfold timedelta_minutes, MINUTE. simpl. lia.
Qed.

Lemma polled_from_next s j s' :
  0 <= window_size s -> 0 < current_minute_total s ->
  polled_from s j s' -> polled_from s (S j) (_save_minute_data s').
Proof.
  intros Hw Hpos (H1 & H2 & H3 & H4 & H5 & H6).
  assert (Hx : forall n : Z,
    Forall (fun e : entry =>
              last_minute s - timedelta_minutes (window_size s) <= e.1)
           (replicate (S j) (last_minute s, n))).
  { intros n. apply Forall_replicate. unfold timedelta_minutes, MINUTE. simpl. lia. }
  repeat split; try done.
  - rewrite save_total_counts, H1, H2, H4, H5.
    apply Z.ltb_lt in Hpos. rewrite Hpos.
    rewrite <- app_assoc, <- replicate_S_end.
    apply popleft_while_stable, Hx.
  - intros k n Hk. rewrite save_emoji_counts_lookup, H1, H2, H3, Hk.
    unfold series at 1. rewrite (H6 k n Hk). simpl. f_equal.
    rewrite <- app_assoc, <- replicate_S_end.
    apply popleft_while_stable, Hx.
Qed.

Lemma polled_from_run fromisoformat ops s j s' :
  0 <= window_size s -> 0 < current_minute_total s ->
  Forall (fun o => is_series_query o = true) ops ->
  polled_from s j s' ->
  polled_from s (j + length ops) (run fromisoformat ops s').
Proof.
  intros Hw Hpos Hops. revert j s'.
  induction Hops as [|o ops Ho _ IH]; intros j s' H.
  - simpl. by rewrite Nat.add_0_r.
  - simpl length. rewrite Nat.add_succ_r, <- Nat.add_succ_l. simpl run.
    apply IH. destruct o; try discriminate; simpl;
      by apply polled_from_next.
Qed.

(** X11. With a window that is not negative and a positive open total,
    every [get_total_data] or [get_emoji_data] call appends one more copy of
    the open bucket: after [n] such calls in a row the total series ends in
    [n] entries for the open minute, and so does the series of every
    category of the open bucket, so these series grow with the number of
    polls. *)
Theorem polls_append_a_copy_each
    (fromisoformat : string -> option datetime) (s : EmojiAnalytics)
    (o : op) (ops : list op) :
  0 <= window_size s -> 0 < current_minute_total s ->
  is_series_query o = true ->
  Forall (fun o => is_series_query o = true) ops ->
  total_counts (run fromisoformat (o :: ops) s)
  = popleft_while (last_minute s - timedelta_minutes (window_size s))
      (total_counts s)
    ++ replicate (S (length ops)) (last_minute s, current_minute_total s)
  /\ forall emoji_type n, current_minute_counts s !! emoji_type = Some n ->
       emoji_counts (run fromisoformat (o :: ops) s) !! emoji_type
       = Some (popleft_while (last_minute s - timedelta_minutes (window_size s))
                 (series emoji_type s)
               ++ replicate (S (length ops)) (last_minute s, n)).
Proof.
  intros Hw Hpos Ho Hops.
  assert (H1 : polled_from s 1 (exec fromisoformat o s)).
  { destruct o; try discriminate; simpl; by apply polled_from_first. }
  pose proof (polled_from_run fromisoformat ops s 1 _ Hw Hpos Hops H1)
    as (_ & _ & _ & _ & Ht & He).
  split; [exact Ht | exact He].
Qed.

Lemma polls_append_a_copy_each_witness :
  total_counts
    (run IsoBasic.fromisoformat [GetTotalData; GetEmojiData; GetTotalData] one_event)
  = replicate 3 (clock "2024-01-01T10:00:00", 1).
Proof.
  destruct (polls_append_a_copy_each IsoBasic.fromisoformat one_event
              GetTotalData [GetEmojiData; GetTotalData]) as [H _].
  - vm_compute. discriminate.
  - vm_compute. reflexivity.
  - reflexivity.
  - repeat constructor.
  - rewrite H. vm_compute. reflexivity.
Defined.

(** ** The series agree minute by minute *)

Lemma at_key_app t d1 d2 : at_key t (d1 ++ d2) = at_key t d1 + at_key t d2.
Proof. unfold at_key. by rewrite filter_app, sum_counts_app. Qed.

Lemma at_key_snoc t d L n :
  at_key t (d ++ [(L, n)]) = at_key t d + (if decide (t = L) then n else 0).
Proof.
  rewrite at_key_app. f_equal. unfold at_key.
  destruct (decide (t = L)) as [->|Hne].
  - rewrite filter_cons_True by done. simpl. lia.
  - rewrite filter_cons_False by (simpl; congruence). done.
Qed.

Lemma popped_keys cutoff d :
  Forall (fun e : entry => e.1 < cutoff) (popped cutoff d).
Proof.
  induction d as [|e d IH]; simpl; [constructor|].
  destruct (Z.ltb_spec e.1 cutoff); [by constructor | constructor].
Qed.

(** The loop takes nothing from the keys at or after the cutoff. *)
Lemma at_key_popleft_while cutoff t d :
  cutoff <= t -> at_key t (popleft_while cutoff d) = at_key t d.
Proof.
  intros Ht. rewrite <- (popped_popleft_while cutoff d) at 2.
  rewrite at_key_app.
  assert (at_key t (popped cutoff d) = 0); [|lia].
  unfold at_key. pose proof (popped_keys cutoff d) as H.
  induction H as [|e l He _ IH]; [done|].
  rewrite filter_cons_False by lia. exact IH.
Qed.

(** Below the cutoff, the loop leaves nothing of a series in order. *)
Lemma at_key_nil t : at_key t [] = 0.
Proof. done. Qed.

(** What [_save_minute_data] adds to the per-category series under a key
    at or after the cutoff: the whole bucket under the marker, nothing
    under another key. *)
Lemma categories_at_save t s :
  last_minute s - timedelta_minutes (window_size s) <= t ->
  categories_at t (_save_minute_data s)
  = categories_at t s + (if decide (t = last_minute s) then bucket_sum s else 0).
Proof.
  intros Ht. unfold categories_at, bucket_sum, _save_minute_data. simpl.
  apply (map_fold_weak_ind
    (fun r m => gsum (at_key t) r
       = gsum (at_key t) (emoji_counts s)
         + (if decide (t = last_minute s) then gsum id m else 0))).
  - rewrite gsum_empty. destruct (decide (t = last_minute s)); lia.
  - intros i x m r Hi IH. unfold save_emoji.
    rewrite gsum_insert, at_key_popleft_while by done.
    rewrite at_key_snoc, IH, (gsum_insert_fresh id m i x Hi).
    assert (at_key t (default [] (r !! i))
            = match r !! i with Some y => at_key t y | None => 0 end) as ->
      by (by destruct (r !! i)).
    change (id x) with x. destruct (decide (t = last_minute s)); lia.
Qed.

Lemma bucket_empty_total s :
  bucket_ok s -> current_minute_total s <= 0 -> current_minute_counts s = ∅.
Proof.
  intros [Hsum Hpos] Ht. apply map_empty. intros k.
  destruct (current_minute_counts s !! k) as [n|] eqn:Hk; [|done].
  exfalso. unfold bucket_sum in Hsum.
  rewrite (gsum_delete id _ k n Hk) in Hsum.
  assert (0 <= gsum id (delete k (current_minute_counts s))).
  { apply gsum_nonneg. intros j y Hj. unfold id.
    apply lookup_delete_Some in Hj as [_ Hj]. apply Hpos in Hj. lia. }
  apply Hpos in Hk. change (id n) with n in Hsum. lia.
Qed.

Lemma agree_init w now : agree (__init__ w now).
Proof.
  exists (last_minute (__init__ w now) - timedelta_minutes w).
  split; [simpl; lia|]. split; [constructor|].
  intros t _. unfold categories_at. simpl. by rewrite gsum_empty.
Qed.

Lemma agree_save s :
  state_ok s -> bucket_ok s -> agree s -> agree (_save_minute_data s).
Proof.
  intros [[Hasc [Hle _]] _] Hb (H & HH & Hall & Hag).
  destruct (Z.ltb_spec 0 (current_minute_total s)) as [Hpos|Hzero].
  - exists (last_minute s - timedelta_minutes (window_size s)).
    split; [simpl; lia|]. split.
    + rewrite save_total_counts. apply Z.ltb_lt in Hpos. rewrite Hpos.
      by apply popleft_while_cutoff, ascending_snoc.
    + intros t Ht. rewrite categories_at_save by done.
      rewrite save_total_counts. apply Z.ltb_lt in Hpos. rewrite Hpos.
      rewrite at_key_popleft_while, at_key_snoc by done.
      rewrite Hag by lia. by rewrite (proj1 Hb).
  - rewrite save_idle; [by exists H | by apply bucket_empty_total | done].
Qed.

Lemma agree_rotate m s :
  state_ok s -> bucket_ok s -> agree s -> agree (rotate m s).
Proof.
  intros Hs Hb Ha. unfold rotate.
  destruct (Z.ltb_spec (last_minute s) m) as [Hlt|]; [|done].
  destruct (agree_save s Hs Hb Ha) as (H & HH & Hall & Hag).
  exists H. split; [simpl in *; lia|]. by split.
Qed.

Lemma agree_exec fromisoformat o s :
  state_ok s -> bucket_ok s -> agree s -> agree (exec fromisoformat o s).
Proof.
  intros Hs Hb Ha. destruct o; simpl; try (by apply agree_save); [|done].
  unfold add_emoji, add_emoji_locked.
  destruct (agree_rotate
              (replace_second_microsecond_0
                 (parse_timestamp fromisoformat timestamp_str now)) s Hs Hb Ha)
    as (H & HH & Hall & Hag).
  by exists H.
Qed.

Lemma agree_run fromisoformat ops s :
  state_ok s -> bucket_ok s -> agree s -> agree (run fromisoformat ops s).
Proof.
  revert s. induction ops as [|o ops IH]; intros s Hs Hb Ha; simpl; [done|].
  apply IH; [by apply state_ok_exec | by apply bucket_ok_exec | by apply agree_exec].
Qed.

(** X12. After any sequence of operations on a new aggregator, the
    per-category series and the total series agree on every minute the
    total series retains: under the key of each total entry, the counts of
    all per-category series add up to the counts of the total series. *)
Theorem series_agree_on_retained_minutes
    (fromisoformat : string -> option datetime) (w now0 : Z) (ops : list op)
    (e : entry) :
  e ∈ total_counts (run fromisoformat ops (__init__ w now0)) ->
  categories_at e.1 (run fromisoformat ops (__init__ w now0))
  = at_key e.1 (total_counts (run fromisoformat ops (__init__ w now0))).
Proof.
  intros He.
  destruct (agree_run fromisoformat ops _ (state_ok_init w now0)
              (bucket_ok_init w now0) (agree_init w now0))
    as (H & _ & Hall & Hag).
  apply Hag. by apply (proj1 (Forall_forall _ _) Hall).
Qed.

Lemma series_agree_on_retained_minutes_witness :
  categories_at (clock "2024-01-01T10:10:00", 1).1 idle_category
  = at_key (clock "2024-01-01T10:10:00", 1).1 (total_counts idle_category).
Proof.
  apply (series_agree_on_retained_minutes IsoBasic.fromisoformat 3
           (clock "2024-01-01T09:59:30")
           [AddEmoji "A" "2024-01-01T10:00:00" (clock "2024-01-01T10:00:01");
            AddEmoji "B" "2024-01-01T10:01:00" (clock "2024-01-01T10:01:01");
            AddEmoji "B" "2024-01-01T10:10:00" (clock "2024-01-01T10:10:01");
            AddEmoji "B" "2024-01-01T10:20:00" (clock "2024-01-01T10:20:01")]
           (clock "2024-01-01T10:10:00", 1)).
  vm_compute. apply list_elem_of_here.
Defined.

(** ** The consumer loop *)

Import Consumer.

(** X14. A message whose value is truthy without being an object (a
    number, a string, an array) ends the consumer loop: the aggregator stays
    as the messages before it left it, and no message after it is counted,
    whatever it holds. *)
Theorem consumer_stops_at_non_object
    (fromisoformat : string -> option datetime)
    (before after : list message) (now : Z) (s : EmojiAnalytics) :
  forallb well_formed before = true ->
  kafka_consumer_thread fromisoformat
    (before ++ mk_message VOther now :: after) s
  = (feed (omap (accepted fromisoformat) before) s, false).
Proof.
  revert s. induction before as [|m before IH]; intros s H; [done|].
  simpl in H. apply andb_prop in H as [Hm H].
  destruct m as [v t]. unfold well_formed in Hm. simpl in *.
  unfold handle, accepted. simpl.
  destruct v as [|[e|] ts|]; simpl; try discriminate; try (by apply IH).
  destruct (negb (String.eqb e "") && truthy ts); simpl; by apply IH.
Qed.

(** ** Concurrent callers are linearizable *)

Module LinearizeProofs.
Import Concurrent ConcurrentInv Linearize.

Lemma merge_sym {A} (l1 l2 l : list A) : merge l1 l2 l -> merge l2 l1 l.
Proof. induction 1; by constructor. Qed.

Lemma merge_snoc_l {A} (l1 l2 l : list A) x :
  merge l1 l2 l -> merge (l1 ++ [x]) l2 (l ++ [x]).
Proof. induction 1; simpl; repeat constructor; done. Qed.

Lemma merge_length {A} (l1 l2 l : list A) :
  merge l1 l2 l -> length l = (length l1 + length l2)%nat.
Proof. induction 1; simpl; lia. Qed.

Lemma run_snoc fromisoformat ops o s :
  run fromisoformat (ops ++ [o]) s
  = exec fromisoformat o (run fromisoformat ops s).
Proof. unfold run. by rewrite foldl_snoc. Qed.

Section Lin.

Variable fromisoformat : string -> option datetime.
Variable s0 : EmojiAnalytics.

Local Abbreviation lin := (lin fromisoformat s0).
Local Abbreviation view := (view fromisoformat).
Local Abbreviation thread_ok := (thread_ok fromisoformat).

Lemma view_outside th base : in_cs (at_pc th) = false -> view th base = base.
Proof.
  unfold Linearize.view, partial. destruct (pending th); [done|].
  by destruct (at_pc th).
Qed.

Lemma thread_ok_outside th base base' :
  in_cs (at_pc th) = false -> thread_ok th base -> thread_ok th base'.
Proof.
  unfold Linearize.thread_ok, reg_ok. destruct (pending th); [done|].
  by destruct (at_pc th).
Qed.

Lemma lin_sym ca cb s l a b : lin ca cb s l a b -> lin cb ca s l b a.
Proof.
  intros (da & db & order & Hm & Ha & Hb & Ta & Tb & Hl & Hx & Hs).
  exists db, da, order. repeat split; try done.
  - by apply merge_sym.
  - by rewrite orb_comm.
  - by rewrite andb_comm.
  - destruct (in_cs (at_pc a)) eqn:Ea, (in_cs (at_pc b)) eqn:Eb;
      try done; simpl in *.
    rewrite Hs. by rewrite !view_outside.
Qed.

Lemma step_thread_lin ca cb a b s l a' s' l' :
  step_thread fromisoformat a s l = Some (a', s', l') ->
  lin ca cb s l a b -> lin ca cb s' l' a' b.
Proof.
  intros Hstep (da & db & order & Hm & Ha & Hb & Ta & Tb & Hl & Hx & Hs).
  destruct a as [pend p]. unfold step_thread in Hstep.
  unfold Linearize.thread_ok in Ta. simpl in *.
  destruct pend as [|[[e ts] now] rest]; [discriminate|].
  set (base := run fromisoformat (map to_op order) s0) in *.
  destruct p; simpl in *.
  - (* Parse *)
    injection Hstep as <- <- <-.
    exists da, db, order. by repeat split.
  - (* Acquire *)
    destruct l; [discriminate|]. injection Hstep as <- <- <-.
    symmetry in Hl. exists da, db, order. repeat split; try done.
    rewrite Hs. by apply view_outside.
  - (* Rotate *)
    injection Hstep as <- <- <-. exists da, db, order.
    repeat split; try done. unfold Linearize.view, partial. simpl.
    by rewrite Hs, Ta.
  - (* LoadCount *)
    injection Hstep as <- <- <-. exists da, db, order.
    repeat split; try done. unfold Linearize.thread_ok, reg_ok. simpl.
    by rewrite Hs.
  - (* StoreCount *)
    injection Hstep as <- <- <-. exists da, db, order.
    repeat split; try done. unfold Linearize.view, partial. simpl.
    by rewrite Hs, Ta.
  - (* LoadTotal *)
    injection Hstep as <- <- <-. exists da, db, order.
    repeat split; try done. unfold Linearize.thread_ok, reg_ok. simpl.
    by rewrite Hs.
  - (* StoreTotal *)
    injection Hstep as <- <- <-. exists da, db, order.
    repeat split; try done. unfold Linearize.view, partial. simpl.
    by rewrite Hs, Ta.
  - (* Release *)
    injection Hstep as <- <- <-.
    exists (da ++ [(e, ts, now)]), db, (order ++ [(e, ts, now)]).
    assert (Hbase : run fromisoformat (map to_op (order ++ [(e, ts, now)])) s0 = s).
    { rewrite map_app.
      change (map to_op [(e, ts, now)]) with [to_op (e, ts, now)].
      rewrite run_snoc. by rewrite Hs. }
    rewrite Hbase. repeat split; try done.
    + by apply merge_snoc_l.
    + by rewrite <- app_assoc.
    + unfold Linearize.thread_ok. simpl. by destruct rest.
    + by eapply thread_ok_outside.
    + symmetry. by apply view_outside.
Qed.

Lemma step_lin t c c' calls1 calls2 :
  step fromisoformat t c = Some c' ->
  lin calls1 calls2 (shared c) (locked c) (thread1 c) (thread2 c) ->
  lin calls1 calls2 (shared c') (locked c') (thread1 c') (thread2 c').
Proof.
  unfold step. intros Hstep Hinv. destruct t.
  - destruct (step_thread fromisoformat (thread1 c) (shared c) (locked c))
      as [[[th s] l]|] eqn:E; [|discriminate].
    injection Hstep as <-. simpl. by eapply step_thread_lin.
  - destruct (step_thread fromisoformat (thread2 c) (shared c) (locked c))
      as [[[th s] l]|] eqn:E; [|discriminate].
    injection Hstep as <-. simpl.
    apply lin_sym. eapply step_thread_lin; [exact E|]. by apply lin_sym.
Qed.

Lemma run_sched_lin sched c c' calls1 calls2 :
  run_sched fromisoformat sched c = Some c' ->
  lin calls1 calls2 (shared c) (locked c) (thread1 c) (thread2 c) ->
  lin calls1 calls2 (shared c') (locked c') (thread1 c') (thread2 c').
Proof.
  revert c. induction sched as [|t sched IH]; simpl; intros c Hrun Hinv.
  - by injection Hrun as <-.
  - destruct (step fromisoformat t c) as [c1|] eqn:E; [|discriminate].
    simpl in Hrun. eapply IH; [exact Hrun|]. by eapply step_lin.
Qed.

Lemma lin_start calls1 calls2 :
  lin calls1 calls2 s0 false (mk_thread calls1 Parse) (mk_thread calls2 Parse).
Proof.
  exists [], [], []. repeat split; try constructor.
  - unfold Linearize.thread_ok. simpl. by destruct calls1.
  - unfold Linearize.thread_ok. simpl. by destruct calls2.
  - simpl. unfold Linearize.view. simpl. by destruct calls2.
Qed.

(** A thread with a call pending can step unless it waits for the lock. *)
Lemma step_thread_enabled th s l :
  pending th <> [] ->
  (l = false \/ forall m, at_pc th <> Acquire m) ->
  is_Some (step_thread fromisoformat th s l).
Proof.
  intros Hp Hl. destruct th as [[|[[e ts] now] rest] p]; [done|].
  unfold step_thread. simpl in *.
  destruct p; try (by eexists).
  destruct Hl as [->|Hl]; [by eexists|]. by destruct (Hl current_minute).
Qed.

Lemma in_cs_pending th base :
  thread_ok th base -> in_cs (at_pc th) = true ->
  pending th <> [] /\ forall m, at_pc th <> Acquire m.
Proof.
  unfold Linearize.thread_ok. intros Hok Hcs. split.
  - intros Hp. rewrite Hp in Hok. by rewrite Hok in Hcs.
  - intros m Hm. by rewrite Hm in Hcs.
Qed.

(** No deadlock, whatever the calls: while a call is pending some thread
    can take a step. *)
Lemma progress_lin c calls1 calls2 :
  lin calls1 calls2 (shared c) (locked c) (thread1 c) (thread2 c) ->
  ~ finished c -> exists t c', step fromisoformat t c = Some c'.
Proof.
  intros (da & db & order & _ & _ & _ & Ta & Tb & Hl & _ & _) Hnf.
  assert (Hen : is_Some (step_thread fromisoformat (thread1 c) (shared c) (locked c))
                \/ is_Some (step_thread fromisoformat (thread2 c) (shared c) (locked c))).
  { destruct (locked c) eqn:El.
    - symmetry in Hl. apply orb_true_iff in Hl as [Hcs|Hcs].
      + left. destruct (in_cs_pending _ _ Ta Hcs). apply step_thread_enabled; auto.
      + right. destruct (in_cs_pending _ _ Tb Hcs). apply step_thread_enabled; auto.
    - destruct (pending (thread1 c)) as [|x r] eqn:E1.
      + right. apply step_thread_enabled; [|by left].
        intros E2. apply Hnf. by split.
      + left. apply step_thread_enabled; [|by left]. by rewrite E1. }
  unfold step. destruct Hen as [[[[th s] l] E]|[[[th s] l] E]].
  - exists T1. rewrite E. by eexists.
  - exists T2. rewrite E. by eexists.
Qed.

Lemma run_sched_steps_left sched c c' :
  run_sched fromisoformat sched c = Some c' ->
  (steps_left (thread1 c) + steps_left (thread2 c))%nat
  = (length sched + (steps_left (thread1 c') + steps_left (thread2 c')))%nat.
Proof.
  revert c. induction sched as [|t sched IH]; simpl; intros c Hrun.
  - by injection Hrun as <-.
  - destruct (step fromisoformat t c) as [c1|] eqn:E; [|discriminate].
    simpl in Hrun. apply IH in Hrun.
    pose proof (ConcurrentProofs.step_steps_left fromisoformat t c c1 E). lia.
Qed.

Lemma completion_lin c calls1 calls2 :
  lin calls1 calls2 (shared c) (locked c) (thread1 c) (thread2 c) ->
  exists sched c', run_sched fromisoformat sched c = Some c' /\ finished c'.
Proof.
  remember (steps_left (thread1 c) + steps_left (thread2 c))%nat as n eqn:Hn.
  revert c Hn. induction n as [|n IH]; intros c Hn Hinv.
  - exists [], c. split; [done|].
    unfold finished, steps_left in *.
    destruct (pending (thread1 c)), (pending (thread2 c)); try done;
      destruct (at_pc (thread1 c)), (at_pc (thread2 c)); simpl in Hn; lia.
  - destruct (progress_lin c calls1 calls2 Hinv) as (t & c1 & Hstep).
    { intros [F1 F2]. unfold steps_left in Hn. rewrite F1, F2 in Hn. lia. }
    pose proof (ConcurrentProofs.step_steps_left fromisoformat t c c1 Hstep) as Hdec.
    destruct (IH c1) as (sched & c' & Hrun & Hfin);
      [lia | by eapply step_lin |].
    exists (t :: sched), c'. split; [|done]. simpl. by rewrite Hstep.
Qed.

Lemma steps_left_start calls :
  steps_left (mk_thread calls Parse) = (8 * length calls)%nat.
Proof. unfold steps_left. destruct calls; simpl; lia. Qed.

End Lin.
End LinearizeProofs.

Import Linearize LinearizeProofs.

(** X15. Two threads that call [add_emoji] concurrently, on any calls and
    from any state, are linearizable: in every execution, whenever the lock
    is free (which is when a query can run), the shared instance is the
    state that the calls completed so far give when made one after the
    other, in some order that interleaves those of the two threads. *)
Theorem concurrent_callers_are_linearizable
    (fromisoformat : string -> option datetime) (s0 : EmojiAnalytics)
    (calls1 calls2 : list call) (sched : list tid) (c : config) :
  run_sched fromisoformat sched (start s0 calls1 calls2) = Some c ->
  locked c = false ->
  exists done1 done2 order,
    merge done1 done2 order
    /\ calls1 = done1 ++ pending (thread1 c)
    /\ calls2 = done2 ++ pending (thread2 c)
    /\ shared c = run fromisoformat (map to_op order) s0.
Proof.
  intros Hrun Hfree.
  pose proof (run_sched_lin fromisoformat s0 sched _ c calls1 calls2 Hrun
                (lin_start fromisoformat s0 calls1 calls2))
    as (d1 & d2 & order & Hm & H1 & H2 & _ & _ & Hl & _ & Hs).
  exists d1, d2, order. repeat split; try done.
  rewrite Hfree in Hl. symmetry in Hl. apply orb_false_elim in Hl as [Ha Hb].
  rewrite Ha in Hs. rewrite Hs. by apply view_outside.
Qed.

Lemma concurrent_callers_are_linearizable_witness :
  exists done1 done2 order,
    merge done1 done2 order
    /\ late_caller = done1 ++ pending (thread1 after_two_callers)
    /\ early_caller = done2 ++ pending (thread2 after_two_callers)
    /\ shared after_two_callers
       = run IsoBasic.fromisoformat (map to_op order) analytics.
Proof.
  apply (concurrent_callers_are_linearizable IsoBasic.fromisoformat analytics
           late_caller early_caller second_caller_first after_two_callers).
  - vm_compute. reflexivity.
  - reflexivity.
Defined.

(** X16. Two threads that call [add_emoji] concurrently never deadlock,
    whatever their calls: every execution can be run on until both threads
    are done, and an execution that ends with both threads done has taken
    exactly eight steps for each call. *)
Theorem concurrent_callers_finish
    (fromisoformat : string -> option datetime) (s0 : EmojiAnalytics)
    (calls1 calls2 : list call) (sched : list tid) (c : config) :
  run_sched fromisoformat sched (start s0 calls1 calls2) = Some c ->
  (exists sched' c', run_sched fromisoformat sched' c = Some c' /\ finished c')
  /\ (finished c ->
      length sched = (8 * (length calls1 + length calls2))%nat
      /\ locked c = false
      /\ exists order,
           merge calls1 calls2 order
           /\ shared c = run fromisoformat (map to_op order) s0).
Proof.
  intros Hrun.
  pose proof (run_sched_lin fromisoformat s0 sched _ c calls1 calls2 Hrun
                (lin_start fromisoformat s0 calls1 calls2)) as Hlin.
  split; [by eapply completion_lin|].
  intros [F1 F2]. split.
  - pose proof (run_sched_steps_left fromisoformat sched _ c Hrun) as H.
    simpl in H. rewrite !steps_left_start in H.
    unfold steps_left in H. rewrite F1, F2 in H. lia.
  - destruct Hlin as (d1 & d2 & order & Hm & H1 & H2 & Ta & Tb & Hl & _ & Hs).
    unfold Linearize.thread_ok in Ta, Tb. rewrite F1 in Ta. rewrite F2 in Tb.
    rewrite Ta, Tb in Hl. simpl in Hl. split; [done|].
    exists order. rewrite F1, F2, !app_nil_r in *. subst d1 d2.
    split; [done|]. rewrite Ta in Hs. simpl in Hs.
    rewrite Hs. unfold Linearize.view. by rewrite F2.
Qed.

Lemma concurrent_callers_finish_witness :
  length second_caller_first = (8 * (length late_caller + length early_caller))%nat
  /\ locked after_two_callers = false
  /\ exists order,
       merge late_caller early_caller order
       /\ shared after_two_callers
          = run IsoBasic.fromisoformat (map to_op order) analytics.
Proof.
  destruct (concurrent_callers_finish IsoBasic.fromisoformat analytics
              late_caller early_caller second_caller_first after_two_callers)
    as [_ H]; [vm_compute; reflexivity|].
  apply H. split; reflexivity.
Defined.

Lemma bucket_total_is_sum_witness :
  bucket_sum scenario_C = current_minute_total scenario_C
  /\ 1 <= 3.
Proof.
  destruct (bucket_total_is_sum IsoBasic.fromisoformat 3
              (clock "2024-01-01T09:59:30")
              [AddEmoji "🔥" "2024-01-01T12:00:05" (clock "2024-01-01T12:00:06");
               AddEmoji "🔥" "2024-01-01T12:00:15" (clock "2024-01-01T12:00:16");
               AddEmoji "💧" "2024-01-01T12:00:25" (clock "2024-01-01T12:00:26");
               AddEmoji "🔥" "2024-01-01T12:00:35" (clock "2024-01-01T12:00:36")])
    as [H1 H2].
  split; [exact H1|]. apply (H2 "🔥"%string). vm_compute. reflexivity.
Defined.

Lemma consumer_stops_at_non_object_witness :
  kafka_consumer_thread IsoBasic.fromisoformat
    (sample_messages
     ++ mk_message VOther (clock "2024-01-01T10:00:06") :: sample_messages)
    analytics
  = (feed (omap (accepted IsoBasic.fromisoformat) sample_messages) analytics,
     false).
Proof.
  apply (consumer_stops_at_non_object IsoBasic.fromisoformat sample_messages
           sample_messages (clock "2024-01-01T10:00:06") analytics).
  reflexivity.
Defined.

(** ** Queries before any event *)

Lemma run_queries_init fromisoformat w now ops :
  Forall (fun o => is_add_any o = false) ops ->
  run fromisoformat ops (__init__ w now) = __init__ w now.
Proof.
  induction 1 as [|o ops Ho _ IH]; [done|]. simpl.
  assert (exec fromisoformat o (__init__ w now) = __init__ w now) as ->; [|done].
  destruct o; try discriminate; simpl; try done; by apply save_idle.
Qed.

(** X3. On a new aggregator, before any event, the three queries return an
    empty mapping, an empty list and a zero summary with the configured
    window, and however many of them are made the aggregator stays as it
    was built. *)
Theorem queries_before_any_event
    (fromisoformat : string -> option datetime) (w now : Z) (ops : list op) :
  Forall (fun o => is_add_any o = false) ops ->
  run fromisoformat ops (__init__ w now) = __init__ w now
  /\ get_emoji_data (run fromisoformat ops (__init__ w now)) = (∅, __init__ w now)
  /\ get_total_data (run fromisoformat ops (__init__ w now)) = ([], __init__ w now)
  /\ get_current_stats (run fromisoformat ops (__init__ w now))
     = (mk_stats 0 ∅ w, __init__ w now).
Proof.
  intros H. rewrite (run_queries_init fromisoformat w now ops H).
  split; [done|].
  unfold get_emoji_data, get_total_data.
  rewrite (save_idle (__init__ w now)) by (simpl; done || lia).
  repeat split.
Qed.

Lemma queries_before_any_event_witness :
  run IsoBasic.fromisoformat [GetTotalData; GetCurrentStats; GetEmojiData]
    (__init__ 3 (clock "2024-01-01T09:59:30"))
  = __init__ 3 (clock "2024-01-01T09:59:30").
Proof.
  apply (queries_before_any_event IsoBasic.fromisoformat 3
           (clock "2024-01-01T09:59:30")
           [GetTotalData; GetCurrentStats; GetEmojiData]).
  repeat constructor.
Defined.

(** ** Categories are never forgotten *)

Lemma series_nonempty_save s :
  0 <= window_size s -> series_nonempty s -> series_nonempty (_save_minute_data s).
Proof.
  intros Hw H k d. rewrite save_emoji_counts_lookup.
  destruct (current_minute_counts s !! k) as [n|]; [|by apply H].
  intros [= <-]. rewrite popleft_while_snoc_keep
    by (unfold timedelta_minutes, MINUTE; simpl; lia).
  by destruct (popleft_while _ _).
Qed.

Lemma series_nonempty_exec fromisoformat o s :
  0 <= window_size s -> series_nonempty s ->
  series_nonempty (exec fromisoformat o s).
Proof.
  intros Hw H. destruct o; simpl; try (by apply series_nonempty_save); [|done].
  unfold add_emoji, add_emoji_locked, rotate.
  destruct (last_minute s <? _); [|exact H].
  exact (series_nonempty_save s Hw H).
Qed.

Lemma series_nonempty_run fromisoformat ops s :
  0 <= window_size s -> series_nonempty s ->
  series_nonempty (run fromisoformat ops s).
Proof.
  revert s. induction ops as [|o ops IH]; intros s Hw H; simpl; [done|].
  apply IH; [by rewrite window_size_exec | by apply series_nonempty_exec].
Qed.

Lemma keys_kept_exec fromisoformat o s emoji_type :
  is_Some (emoji_counts s !! emoji_type) ->
  is_Some (emoji_counts (exec fromisoformat o s) !! emoji_type).
Proof.
  intros H.
  assert (Hs : is_Some (emoji_counts (_save_minute_data s) !! emoji_type)).
  { rewrite save_emoji_counts_lookup.
    by destruct (current_minute_counts s !! emoji_type). }
  destruct o; simpl; try done.
  unfold add_emoji, add_emoji_locked, rotate.
  by destruct (last_minute s <? _).
Qed.

Lemma keys_kept_run fromisoformat ops s emoji_type :
  is_Some (emoji_counts s !! emoji_type) ->
  is_Some (emoji_counts (run fromisoformat ops s) !! emoji_type).
Proof.
  revert s. induction ops as [|o ops IH]; intros s H; simpl; [done|].
  by apply IH, keys_kept_exec.
Qed.

(** X17. A category that has a series keeps it under every operation, from
    any state: no key of [emoji_counts] is ever removed, so
    [get_emoji_data] and the breakdown of [get_current_stats] list every
    category ever closed into the series.  With a window that is not
    negative no series of an aggregator that started new is ever empty. *)
Theorem categories_are_never_forgotten
    (fromisoformat : string -> option datetime) (ops : list op) :
  (forall s emoji_type,
     is_Some (emoji_counts s !! emoji_type) ->
     is_Some (emoji_counts (run fromisoformat ops s) !! emoji_type)
     /\ is_Some ((get_emoji_data (run fromisoformat ops s)).1 !! emoji_type)
     /\ is_Some (emoji_breakdown (get_current_stats (run fromisoformat ops s)).1
                   !! emoji_type))
  /\ forall w now0 emoji_type d,
       0 <= w ->
       emoji_counts (run fromisoformat ops (__init__ w now0)) !! emoji_type
       = Some d ->
       d <> [].
Proof.
  split.
  - intros s k Hk.
    pose proof (keys_kept_run fromisoformat ops s k Hk) as H1.
    split; [exact H1|]. split.
    + change (get_emoji_data ?x).1
        with (map to_point <$> emoji_counts (_save_minute_data x)).
      rewrite lookup_fmap, save_emoji_counts_lookup.
      destruct (current_minute_counts _ !! k); [by eexists|].
      destruct H1 as [d ->]. by eexists.
    + rewrite emoji_breakdown_lookup. destruct H1 as [d ->]. by eexists.
  - intros w now0 k d Hw. apply series_nonempty_run; [done|].
    intros k' d' Hk'. simpl in Hk'. by rewrite lookup_empty in Hk'.
Qed.

Lemma categories_are_never_forgotten_witness :
  is_Some (emoji_counts idle_category !! "A"%string).
Proof.
  destruct (categories_are_never_forgotten IsoBasic.fromisoformat
              [AddEmoji "B" "2024-01-01T10:10:00" (clock "2024-01-01T10:10:01");
               AddEmoji "B" "2024-01-01T10:20:00" (clock "2024-01-01T10:20:01")])
    as [H _].
  destruct (H (run IsoBasic.fromisoformat
                 [AddEmoji "A" "2024-01-01T10:00:00" (clock "2024-01-01T10:00:01");
                  AddEmoji "B" "2024-01-01T10:01:00" (clock "2024-01-01T10:01:01")]
                 analytics) "A"%string) as [H1 _].
  - vm_compute. by eexists.
  - exact H1.
Defined.

(** ** Rotation *)

(** X18. An [add_emoji] call for a minute later than the open one, under a
    window that is not negative, files the open bucket under the minute
    that was open, not under the minute of the new event: the total series
    and the series of every category of the bucket end in an entry with the
    old marker and the bucket's count, the series of the other categories
    are as before, and the new bucket holds the new event alone under the
    new marker. *)
Theorem rotation_files_bucket_under_open_minute
    (fromisoformat : string -> option datetime)
    (emoji_type timestamp_str : string) (now : Z) (s : EmojiAnalytics)
    (k : string) :
  0 <= window_size s ->
  last_minute s
  < replace_second_microsecond_0 (parse_timestamp fromisoformat timestamp_str now) ->
  last_minute (add_emoji fromisoformat emoji_type timestamp_str now s)
  = replace_second_microsecond_0 (parse_timestamp fromisoformat timestamp_str now)
  /\ current_minute_counts (add_emoji fromisoformat emoji_type timestamp_str now s)
     = {[ emoji_type := 1 ]}
  /\ current_minute_total (add_emoji fromisoformat emoji_type timestamp_str now s)
     = 1
  /\ (0 < current_minute_total s ->
      total_counts (add_emoji fromisoformat emoji_type timestamp_str now s)
      = popleft_while (last_minute s - timedelta_minutes (window_size s))
          (total_counts s)
        ++ [(last_minute s, current_minute_total s)])
  /\ emoji_counts (add_emoji fromisoformat emoji_type timestamp_str now s) !! k
     = match current_minute_counts s !! k with
       | Some n =>
           Some (popleft_while (last_minute s - timedelta_minutes (window_size s))
                   (series k s)
                 ++ [(last_minute s, n)])
       | None => emoji_counts s !! k
       end.
Proof.
  intros Hw Hlt. unfold add_emoji, add_emoji_locked, rotate.
  apply Z.ltb_lt in Hlt. rewrite Hlt. simpl.
  split; [done|]. split; [rewrite lookup_empty; apply insert_empty|].
  split; [done|]. split.
  - intros Hpos. apply Z.ltb_lt in Hpos. rewrite Hpos.
    apply popleft_while_snoc_keep. unfold timedelta_minutes, MINUTE. simpl. lia.
  - change (map_fold _ _ _) with (emoji_counts (_save_minute_data s)).
    rewrite save_emoji_counts_lookup.
    destruct (current_minute_counts s !! k); [|done]. f_equal.
    apply popleft_while_snoc_keep. unfold timedelta_minutes, MINUTE. simpl. lia.
Qed.

Lemma rotation_files_bucket_under_open_minute_witness :
  total_counts
    (add_emoji IsoBasic.fromisoformat "B" "2024-01-01T10:07:30"
       (clock "2024-01-01T10:07:31") one_event)
  = [(clock "2024-01-01T10:00:00", 1)].
Proof.
  destruct (rotation_files_bucket_under_open_minute IsoBasic.fromisoformat
              "B" "2024-01-01T10:07:30" (clock "2024-01-01T10:07:31")
              one_event "A") as (_ & _ & _ & H & _).
  - vm_compute. discriminate.
  - vm_compute. reflexivity.
  - rewrite H; vm_compute; reflexivity.
Defined.

(** * The service does not raise *)

Module ServiceProofs.
Import Checked.

Lemma truncate_le t : replace_second_microsecond_0 t <= t.
Proof.
  unfold replace_second_microsecond_0, MINUTE.
  pose proof (Z.mul_div_le t 60000000). lia.
Qed.

Lemma cutoff_in_range w lo s :
  0 <= w -> timedelta_minutes w <= lo -> in_range w lo s ->
  is_Some (cutoff_time (last_minute s) (window_size s)).
Proof.
  intros Hw Hlo [-> [Hl Hu]]. unfold cutoff_time, timedelta_ok, representable.
  rewrite DATETIME_MAX_eq in *. unfold timedelta_minutes, MINUTE in *.
  assert (0 <= w / 1440) by (apply Z.div_pos; lia).
  assert (w / 1440 <= 999999999) by (apply Z.div_le_upper_bound; lia).
  destruct (Z.leb_spec (-999999999) (w / 1440)); [|lia].
  destruct (Z.leb_spec (w / 1440) 999999999); [|lia].
  destruct (Z.leb_spec 0 (last_minute s - w * 60000000)); [|lia].
  destruct (Z.leb_spec (last_minute s - w * 60000000) 315537897599999999); [|lia].
  simpl. eauto.
Qed.

Lemma exec_checked_in_range fromisoformat w lo o s :
  0 <= w -> timedelta_minutes w <= lo -> in_range w lo s ->
  op_representable fromisoformat o = true ->
  exec_checked fromisoformat o s = Some (exec fromisoformat o s)
  /\ in_range w lo (exec fromisoformat o s).
Proof.
  intros Hw Hlo Hin Hrep.
  pose proof (cutoff_in_range w lo s Hw Hlo Hin) as [c Hc].
  destruct Hin as [Hws [Hl Hu]].
  destruct o as [emoji_type timestamp_str now| | |]; simpl.
  - split; [apply add_emoji_checked_returns; eauto|].
    simpl in Hrep. unfold representable in Hrep.
    apply andb_prop in Hrep as [_ Hrep]. apply Z.leb_le in Hrep.
    pose proof (truncate_le (parse_timestamp fromisoformat timestamp_str now)).
    unfold add_emoji, add_emoji_locked, rotate.
    destruct (Z.ltb_spec (last_minute s)
                (replace_second_microsecond_0
                   (parse_timestamp fromisoformat timestamp_str now)));
      split; simpl; try done; lia.
  - split; [by eapply save_checked_returns | done].
  - split; [by eapply save_checked_returns | done].
  - done.
Qed.

Lemma run_checked_in_range fromisoformat w lo ops s :
  0 <= w -> timedelta_minutes w <= lo -> in_range w lo s ->
  Forall (fun o => op_representable fromisoformat o = true) ops ->
  run_checked fromisoformat ops s = Some (run fromisoformat ops s).
Proof.
  intros Hw Hlo Hin Hops. revert s Hin.
  induction Hops as [|o ops Ho _ IH]; intros s Hin; [done|].
  destruct (exec_checked_in_range fromisoformat w lo o s Hw Hlo Hin Ho)
    as [E Hin'].
  simpl. rewrite E. simpl. by apply IH.
Qed.

End ServiceProofs.

Import ServiceProofs.

(** X20. An aggregator built with a window that is not negative and not
    longer than the time from 0001-01-01 to the minute of its construction
    never raises: whatever calls of [add_emoji], [get_emoji_data],
    [get_total_data] and [get_current_stats] follow, in any order, with
    wall clocks and parsed timestamps that are [datetime]s, every call
    returns, and the state is the one [run] gives. *)
Theorem service_never_raises
    (fromisoformat : string -> option datetime) (w now0 : Z) (ops : list op) :
  0 <= w ->
  timedelta_minutes w <= replace_second_microsecond_0 now0 ->
  now0 <= DATETIME_MAX ->
  Forall (fun o => op_representable fromisoformat o = true) ops ->
  run_checked fromisoformat ops (__init__ w now0)
  = Some (run fromisoformat ops (__init__ w now0)).
Proof.
  intros Hw Hlo Hmax Hops.
  apply (run_checked_in_range fromisoformat w (replace_second_microsecond_0 now0));
    try done.
  split; [done|]. simpl. pose proof (truncate_le now0). lia.
Qed.

Lemma service_never_raises_witness :
  run_checked IsoBasic.fromisoformat
    [AddEmoji "A" "2024-01-01T10:00:00" (clock "2024-01-01T10:00:01");
     GetTotalData;
     AddEmoji "B" "not a timestamp" (clock "2024-01-01T10:07:31");
     GetEmojiData; GetCurrentStats]
    analytics
  = Some (run IsoBasic.fromisoformat
            [AddEmoji "A" "2024-01-01T10:00:00" (clock "2024-01-01T10:00:01");
             GetTotalData;
             AddEmoji "B" "not a timestamp" (clock "2024-01-01T10:07:31");
             GetEmojiData; GetCurrentStats]
            analytics).
Proof.
  apply (service_never_raises IsoBasic.fromisoformat 3
           (clock "2024-01-01T09:59:30")).
  - lia.
  - vm_compute. discriminate.
  - vm_compute. discriminate.
  - repeat constructor.
Defined.
